(** * Digital Twin RAG pipeline: embedding, retrieval, assembly, generation

    A shallow embedding of [digitaltwin_rag.py], [embed_simple.py],
    [test_rag.py] and the upload loop of [embed_digitaltwin.py].
    [digitaltwin_rag.py] holds two complete programs one
    after the other: the first (lines 1-299) embeds the question locally and
    queries the index by vector, the second (lines 300-519) lets the index
    embed the question.  They define the same function names, so each lives
    in a module of its own here: [Manual] and [Builtin].

    Python values are dynamically typed, so the model has one universe
    [pyval]; Python [str] is a sequence of Unicode code points; Python
    [float] is an IEEE binary64, which is Rocq's primitive [float].  Calls
    to the three external services (encoder, vector index, chat endpoint)
    are recorded in a trace, exceptions are explicit, and the one module
    global ([_embedding_model]) is threaded as state. *)

From Stdlib Require Import ZArith NArith String Ascii Bool Lia List.
From Stdlib Require Import Floats.PrimFloat DecimalNat.
Import ListNotations.

Set Warnings "-register-all,-inexact-float".

(* ------------------------------------------------------------------ *)
(** ** Python strings *)

(** A Python [str]: a sequence of Unicode code points. *)
Definition pychar := N.
Definition pystr := list pychar.

(** An ASCII literal of the source, as a [pystr]. *)
Definition lit (s : string) : pystr :=
  map N_of_ascii (list_ascii_of_string s).

Definition NL : pystr := [10%N].

(** U+274C, the cross mark that starts the error strings of the source. *)
Definition CROSS : pystr := [10060%N].

Fixpoint str_eqb (a b : pystr) : bool :=
  match a, b with
  | [], [] => true
  | x :: a', y :: b' => N.eqb x y && str_eqb a' b'
  | _, _ => false
  end.

(** [str.isspace] on one code point (CPython's [_PyUnicode_IsWhitespace]). *)
Definition is_space (c : pychar) : bool :=
  ((9 <=? c) && (c <=? 13) || (28 <=? c) && (c <=? 32)
   || (c =? 133) || (c =? 160) || (c =? 5760)
   || (8192 <=? c) && (c <=? 8202)
   || (c =? 8232) || (c =? 8233) || (c =? 8239) || (c =? 8287)
   || (c =? 12288))%N.

Fixpoint lstrip (s : pystr) : pystr :=
  match s with
  | c :: s' => if is_space c then lstrip s' else s
  | [] => []
  end.

Definition rstrip (s : pystr) : pystr := rev (lstrip (rev s)).

(** [s.strip()] *)
Definition strip (s : pystr) : pystr := rstrip (lstrip s).

(** [sep.join(parts)] on strings. *)
Fixpoint join (sep : pystr) (parts : list pystr) : pystr :=
  match parts with
  | [] => []
  | [p] => p
  | p :: rest => p ++ sep ++ join sep rest
  end.

(** [str(n)] for a natural number. *)
Fixpoint digits (d : Decimal.uint) : pystr :=
  match d with
  | Decimal.Nil => []
  | Decimal.D0 d => 48%N :: digits d
  | Decimal.D1 d => 49%N :: digits d
  | Decimal.D2 d => 50%N :: digits d
  | Decimal.D3 d => 51%N :: digits d
  | Decimal.D4 d => 52%N :: digits d
  | Decimal.D5 d => 53%N :: digits d
  | Decimal.D6 d => 54%N :: digits d
  | Decimal.D7 d => 55%N :: digits d
  | Decimal.D8 d => 56%N :: digits d
  | Decimal.D9 d => 57%N :: digits d
  end.

Definition decimal (n : nat) : pystr := digits (Nat.to_uint n).

(** [needle in hay] *)
Definition substring (needle hay : pystr) : Prop :=
  exists pre post, hay = pre ++ needle ++ post.

(* ------------------------------------------------------------------ *)
(** ** Python values *)

Inductive pyval : Type :=
| PNone
| PBool (b : bool)
| PInt (z : Z)
| PFloat (f : float)
| PStr (s : pystr)
| PList (l : list pyval)
| PDict (d : list (pystr * pyval))     (* a mapping, in insertion order *)
| PObj (attrs : list (pystr * pyval)). (* an object with data attributes *)

(** Truth value of an object, as [if x], [not x] and [x or y] use it. *)
Definition truthy (v : pyval) : bool :=
  match v with
  | PNone => false
  | PBool b => b
  | PInt z => negb (z =? 0)%Z
  | PFloat f => negb (PrimFloat.eqb f 0%float)
  | PStr s => match s with [] => false | _ => true end
  | PList l => match l with [] => false | _ => true end
  | PDict d => match d with [] => false | _ => true end
  | PObj _ => true
  end.

(** [x or y]: [x] when it is truthy, else [y]. *)
Definition por (x y : pyval) : pyval := if truthy x then x else y.
Infix "|or|" := por (at level 50, left associativity).

Fixpoint assoc (k : pystr) (d : list (pystr * pyval)) : option pyval :=
  match d with
  | [] => None
  | (k', v) :: d' => if str_eqb k k' then Some v else assoc k d'
  end.

(** [d.get(k, default)] on a dict [d]. *)
Definition dict_get (d : list (pystr * pyval)) (k : string) (default : pyval) : pyval :=
  match assoc (lit k) d with Some v => v | None => default end.

(** [getattr(o, name, None)] for the data attributes [score] and
    [metadata]: only an object can carry them, no built-in type does. *)
Definition getattr_or_none (o : pyval) (name : string) : pyval :=
  match o with
  | PObj attrs => match assoc (lit name) attrs with Some v => v | None => PNone end
  | _ => PNone
  end.

(** [isinstance(v, dict)] *)
Definition is_dict (v : pyval) : bool :=
  match v with PDict _ => true | _ => false end.

(* ------------------------------------------------------------------ *)
(** ** Exceptions *)

Inductive exn_class :=
  AttributeError | TypeError | ValueError | IndexError | KeyError
| BackendError.

(** An exception; [exn_msg] is what [str(e)] and an f-string show. *)
Record exn := Exn { exn_cls : exn_class; exn_msg : pystr }.

Definition exc (A : Type) : Type := (A + exn)%type.

(** [type(v).__name__], as the messages of the interpreter show it.  The
    class of an object is not part of the model: it shows as [object]. *)
Definition type_name (v : pyval) : pystr :=
  match v with
  | PNone => lit "NoneType"
  | PBool _ => lit "bool"
  | PInt _ => lit "int"
  | PFloat _ => lit "float"
  | PStr _ => lit "str"
  | PList _ => lit "list"
  | PDict _ => lit "dict"
  | PObj _ => lit "object"
  end.

(** The [AttributeError] of [o.name] on a value without that attribute. *)
Definition no_attribute (o : pyval) (name : string) : exn :=
  Exn AttributeError
    (lit "'" ++ type_name o ++ lit "' object has no attribute '" ++ lit name
     ++ lit "'").

Definition ebind {A B} (m : exc A) (f : A -> exc B) : exc B :=
  match m with inl x => f x | inr e => inr e end.

Fixpoint emap {A B} (f : A -> exc B) (l : list A) : exc (list B) :=
  match l with
  | [] => inl []
  | x :: l' => ebind (f x) (fun y => ebind (emap f l') (fun ys => inl (y :: ys)))
  end.

(** [o.get] where [o] must be a dict: anything else has no usable [get]. *)
Definition as_dict (o : pyval) : exc (list (pystr * pyval)) :=
  match o with
  | PDict d => inl d
  | _ => inr (no_attribute o "get")
  end.

(** [o.name], plain attribute access. *)
Definition getattr (o : pyval) (name : string) : exc pyval :=
  match o with
  | PObj attrs =>
      match assoc (lit name) attrs with
      | Some v => inl v
      | None => inr (no_attribute o name)
      end
  | _ => inr (no_attribute o name)
  end.

(** [o[0]].  The mappings of the model have string keys only, so [0] is
    never a key of one: [KeyError(0)], which prints as [0]. *)
Definition getitem0 (o : pyval) : exc pyval :=
  match o with
  | PList (x :: _) => inl x
  | PList [] => inr (Exn IndexError (lit "list index out of range"))
  | PStr (c :: _) => inl (PStr [c])
  | PStr [] => inr (Exn IndexError (lit "string index out of range"))
  | PDict _ => inr (Exn KeyError (lit "0"))
  | _ =>
      inr (Exn TypeError
             (lit "'" ++ type_name o ++ lit "' object is not subscriptable"))
  end.

(** The elements a [for] loop visits. *)
Definition iterate (o : pyval) : exc (list pyval) :=
  match o with
  | PList l => inl l
  | PStr s => inl (map (fun c => PStr [c]) s)
  | PDict d => inl (map (fun kv => PStr (fst kv)) d)
  | _ =>
      inr (Exn TypeError
             (lit "'" ++ type_name o ++ lit "' object is not iterable"))
  end.

(** [len(o)] *)
Definition py_len (o : pyval) : exc nat :=
  match o with
  | PList l => inl (length l)
  | PStr s => inl (length s)
  | PDict d => inl (length d)
  | _ =>
      inr (Exn TypeError
             (lit "object of type '" ++ type_name o ++ lit "' has no len()"))
  end.

(** [text.strip()]: only a string has the method. *)
Definition py_strip (v : pyval) : exc pystr :=
  match v with
  | PStr s => inl (strip s)
  | _ => inr (no_attribute v "strip")
  end.

(** [sep.join(items)] on a list of values: every item must be a [str];
    the first one that is not, at position [i], raises. *)
Fixpoint as_strs_from (i : nat) (items : list pyval) : exc (list pystr) :=
  match items with
  | [] => inl []
  | PStr s :: rest => ebind (as_strs_from (S i) rest) (fun ss => inl (s :: ss))
  | v :: _ =>
      inr (Exn TypeError
             (lit "sequence item " ++ decimal i
              ++ lit ": expected str instance, " ++ type_name v
              ++ lit " found"))
  end.

Definition as_strs (items : list pyval) : exc (list pystr) :=
  as_strs_from 0 items.

Definition py_join (sep : pystr) (items : list pyval) : exc pystr :=
  ebind (as_strs items) (fun ss => inl (join sep ss)).

(* ------------------------------------------------------------------ *)
(** ** External services, the trace of calls, and the global *)

(** A loaded sentence-transformer: [model.encode(text)] gives the native
    embedding (a 1-D array) or raises. *)
Record model := { encode : pystr -> exc (list float) }.

(** An Upstash index handle:
    [index.query(vector=v, top_k=k, include_metadata=True)] and
    [index.query(data=text, top_k=k, include_metadata=True)]. *)
Record Index := {
  query : list float -> Z -> exc pyval;
  query_data : pystr -> Z -> exc pyval
}.

(** The arguments of [client.chat.completions.create]. *)
Record chat_request := {
  req_model : pystr;
  req_system : pystr;      (* content of the "system" message *)
  req_user : pystr;        (* content of the "user" message *)
  req_temperature : float;
  req_max_tokens : Z
}.

Record Groq := { create : chat_request -> exc pyval }.

Inductive event :=
| EvLoadModel (name : pystr)
| EvEncode (text : pystr)
| EvQuery (vector : list float) (top_k : Z)
| EvQueryData (data : pystr) (top_k : Z)
| EvChat (req : chat_request).

Definition is_chat (e : event) : bool :=
  match e with EvChat _ => true | _ => false end.

(** No call to the chat endpoint happened. *)
Definition no_generation (t : list event) : Prop :=
  forallb (fun e => negb (is_chat e)) t = true.



(** Module globals of [digitaltwin_rag.py]. *)
Record globals := { _embedding_model : option model }.

(** A computation: reads and writes the globals, appends to the trace,
    returns or raises. *)
Definition io (A : Type) : Type := globals -> list event * globals * exc A.

Definition ret {A} (x : A) : io A := fun g => ([], g, inl x).

Definition bind {A B} (m : io A) (f : A -> io B) : io B :=
  fun g =>
    match m g with
    | (t, g', inl x) => let '(t', g'', r) := f x g' in (t ++ t', g'', r)
    | (t, g', inr e) => (t, g', inr e)
    end.

(** A pure step that may raise. *)
Definition lift {A} (r : exc A) : io A := fun g => ([], g, r).

(** A call to an external service: logged, then its outcome. *)
Definition call {A} (ev : event) (r : exc A) : io A := fun g => ([ev], g, r).

(** [try: body  except Exception as e: handler e] *)
Definition try_except {A} (body : io A) (handler : exn -> io A) : io A :=
  fun g =>
    match body g with
    | (t, g', inl x) => (t, g', inl x)
    | (t, g', inr e) => let '(t', g'', r) := handler e g' in (t ++ t', g'', r)
    end.

Definition get_globals : io globals := fun g => ([], g, inl g).
Definition put_globals (g' : globals) : io unit := fun _ => ([], g', inl tt).

Declare Scope io_scope.
Delimit Scope io_scope with io.
Notation "x <- m ;; k" := (bind m (fun x => k))
  (at level 61, m at next level, right associativity) : io_scope.
Notation "m ;;; k" := (bind m (fun _ => k))
  (at level 61, right associativity) : io_scope.
Local Open Scope io_scope.

(* ------------------------------------------------------------------ *)
(** ** embed_simple.py *)

Module EmbedSimple.

(** [create_embedding], lines 58-64.  [np.pad(emb, (0, n), mode='constant')]
    appends [n] zeros; [emb[:1536]] keeps the first 1536 values. *)
Definition create_embedding (m : model) (text : pystr) : exc (list float) :=
  ebind (encode m text) (fun emb =>
  let emb :=
    if length emb <? 1536 then emb ++ repeat 0%float (1536 - length emb)
    else emb in
  inl (firstn 1536 emb)).

End EmbedSimple.

(* ------------------------------------------------------------------ *)
(** ** test_rag.py *)

Module TestRag.

(** The query embedding of [query_digital_twin], lines 37-42. *)
Definition query_embedding (m : model) (question : pystr) : exc (list float) :=
  ebind (encode m question) (fun query_embedding =>
  let query_embedding :=
    if length query_embedding <? 1536
    then query_embedding ++ repeat 0%float (1536 - length query_embedding)
    else query_embedding in
  inl (firstn 1536 query_embedding)).

End TestRag.

(* ------------------------------------------------------------------ *)
(** ** digitaltwin_rag.py, first program (lines 1-299) *)

Module Manual.
Section Program.

(** The imported [SentenceTransformer] class: [None] when the package is
    missing (lines 34-37), else its constructor, which may raise. *)
Variable SentenceTransformer : option (pystr -> exc model).

(** [DEFAULT_MODEL], read from the environment at line 44. *)
Variable DEFAULT_MODEL : pystr.

(** Python's built-in [str] on values that are not strings. *)
Variable py_str : pyval -> pystr.

(** How an f-string field shows a value. *)
Definition fmt (v : pyval) : pystr :=
  match v with PStr s => s | _ => py_str v end.

Definition MODEL_NAME : pystr := lit "sentence-transformers/all-MiniLM-L6-v2".

(** [get_embedding_model], lines 49-62. *)
Definition get_embedding_model : io (option model) :=
  g <- get_globals ;;
  match _embedding_model g with
  | None =>
      match SentenceTransformer with
      | None => ret None
      | Some ctor =>
          try_except
            (m <- call (EvLoadModel MODEL_NAME) (ctor MODEL_NAME) ;;
             put_globals {| _embedding_model := Some m |} ;;;
             ret (Some m))
            (fun _ => ret None)
      end
  | Some m => ret (Some m)
  end.

(** [embed_text], lines 156-174.  [None] is the failure value. *)
Definition embed_text (text : pystr) : io (option (list float)) :=
  model <- get_embedding_model ;;
  match model with
  | None => ret None
  | Some model =>
      try_except
        (embedding <- call (EvEncode text) (encode model text) ;;
         let embedding :=
           if length embedding <? 1536
           then embedding ++ repeat 0%float (1536 - length embedding)
           else embedding in
         ret (Some embedding))
        (fun _ => ret None)
  end.

(** [h.get(k) if isinstance(h, dict) else None] *)
Definition get_if_dict (h : pyval) (k : string) : pyval :=
  match h with PDict d => dict_get d k PNone | _ => PNone end.

(** The choice of [hits] from the raw response, lines 192-196. *)
Definition select_hits (res : pyval) : pyval :=
  match res with
  | PDict d => dict_get d "results" PNone |or| dict_get d "matches" PNone |or| PList []
  | PList _ => res
  | _ => PList []
  end.

(** The body of the normalising loop, lines 200-203. *)
Definition normalize_hit (h : pyval) : exc pyval :=
  let score := getattr_or_none h "score" |or| get_if_dict h "score" in
  let metadata :=
    getattr_or_none h "metadata" |or| get_if_dict h "metadata" |or| PDict [] in
  ebind (as_dict metadata) (fun md =>
  let text :=
    dict_get md "content" PNone |or| dict_get md "text" PNone
    |or| dict_get md "title" (PStr []) in
  inl (PDict [(lit "score", score); (lit "metadata", metadata); (lit "text", text)])).

(** Lines 191-204: from the raw response to the normalised hits. *)
Definition normalize (res : pyval) : exc (list pyval) :=
  ebind (iterate (select_hits res)) (emap normalize_hit).

(** [query_vectors], lines 176-207. *)
Definition query_vectors (index : option Index) (query_text : pystr) (top_k : Z)
  : io (list pyval) :=
  match index with
  | None => ret []
  | Some index =>
      query_embedding <- embed_text query_text ;;
      match query_embedding with
      | None => ret []
      | Some query_embedding =>
          try_except
            (res <- call (EvQuery query_embedding top_k)
                         (query index query_embedding top_k) ;;
             lift (normalize res))
            (fun _ => ret [])
      end
  end.

Definition SYSTEM_PROMPT : pystr :=
  lit "You are the digital twin of the user. Answer in first person and only use provided context.".

(** [hasattr(o, name)] *)
Definition hasattr (o : pyval) (name : string) : bool :=
  match o with
  | PObj attrs => match assoc (lit name) attrs with Some _ => true | None => false end
  | _ => false
  end.

(** Lines 224-229: the text of a completion, in its three shapes. *)
Definition completion_text (completion : pyval) : exc pyval :=
  if hasattr completion "choices" then
    ebind (getattr completion "choices") (fun choices =>
    ebind (getitem0 choices) (fun choice =>
    ebind (getattr choice "message") (fun message =>
    getattr message "content")))
  else
    match completion with
    | PDict d =>
        ebind (getitem0 (dict_get d "choices" (PList [PDict []]))) (fun choice =>
        ebind (as_dict choice) (fun cd =>
        ebind (as_dict (dict_get cd "message" (PDict []))) (fun md =>
        inl (dict_get md "content" (PStr [])))))
    | _ => inl (PStr (py_str completion))
    end.

Definition NOT_INITIALIZED : pystr := CROSS ++ lit " Groq client not initialized".
Definition ERROR_MARKER : pystr := CROSS ++ lit " Error generating response: ".

(** [generate_response_with_groq], lines 209-232. *)
Definition generate_response_with_groq (client : option Groq) (prompt : pystr)
    (model : pystr) (temperature : float) (max_tokens : Z) : io pystr :=
  match client with
  | None => ret NOT_INITIALIZED
  | Some client =>
      let req := {| req_model := model; req_system := SYSTEM_PROMPT;
                    req_user := prompt; req_temperature := temperature;
                    req_max_tokens := max_tokens |} in
      try_except
        (completion <- call (EvChat req) (create client req) ;;
         text <- lift (completion_text completion) ;;
         lift (py_strip text))
        (fun e => ret (ERROR_MARKER ++ exn_msg e))
  end.

(** The body of the context loop, lines 247-255: the entry one hit adds
    to [contexts]. *)
Definition context_entry (h : pyval) : exc pyval :=
  ebind (as_dict h) (fun hd =>
  let meta := dict_get hd "metadata" PNone |or| PDict [] in
  ebind (as_dict meta) (fun md =>
  let text :=
    dict_get hd "text" PNone |or| dict_get md "content" PNone
    |or| dict_get md "text" PNone |or| PStr [] in
  let title :=
    dict_get md "title" PNone |or| dict_get md "section" PNone |or| PStr [] in
  if truthy title
  then inl (PStr (fmt title ++ lit ": " ++ fmt text))
  else inl text)).

(** Lines 244-257: [contexts], then [context_block]. *)
Definition contexts (hits : list pyval) : exc (list pyval) :=
  emap context_entry hits.

Definition context_block (hits : list pyval) : exc pystr :=
  ebind (contexts hits) (py_join (NL ++ NL)).

Definition INSTRUCTION : pystr :=
  lit "If the context does not contain enough detail, say you don't have enough information.".

(** The f-string of lines 259-266, in its three literal pieces around the
    two fields. *)
Definition PROMPT_HEAD : pystr :=
  lit "Based on the information below from my profile, answer the question in first person."
  ++ NL ++ NL ++ lit "Context:" ++ NL.
Definition QUESTION_LABEL : pystr := NL ++ NL ++ lit "Question: ".
Definition PROMPT_TAIL : pystr :=
  NL ++ NL ++ INSTRUCTION ++ lit " Keep the answer concise and professional.".

Definition prompt (context_block question : pystr) : pystr :=
  PROMPT_HEAD ++ context_block ++ QUESTION_LABEL ++ question ++ PROMPT_TAIL.

Definition PLEASE_PROVIDE : pystr := lit "Please provide a question.".
Definition NOT_FOUND : pystr :=
  lit "I couldn't find relevant information in the digital twin.".

(** [rag_query], lines 234-270. *)
Definition rag_query (index : option Index) (groq_client : option Groq)
    (question : pystr) (top_k : Z) : io pystr :=
  match question with
  | [] => ret PLEASE_PROVIDE
  | _ =>
      hits <- query_vectors index question top_k ;;
      match hits with
      | [] => ret NOT_FOUND
      | _ =>
          context_block <- lift (context_block hits) ;;
          generate_response_with_groq groq_client (prompt context_block question)
            DEFAULT_MODEL 0.2%float 400
      end
  end.

End Program.
End Manual.

(* ------------------------------------------------------------------ *)
(** ** digitaltwin_rag.py, second program (lines 300-519) *)

Module Builtin.
Section Program.

Variable py_str : pyval -> pystr.

Definition fmt (v : pyval) : pystr :=
  match v with PStr s => s | _ => py_str v end.

Definition DEFAULT_MODEL : pystr := lit "llama-3.1-8b-instant".

Definition none_has_no (name : string) : exn :=
  Exn AttributeError (lit "'NoneType' object has no attribute '" ++ lit name ++ lit "'").

(** [query_vectors], lines 395-406: the raw response, or [None]. *)
Definition query_vectors (index : option Index) (query_text : pystr) (top_k : Z)
  : io pyval :=
  try_except
    (match index with
     | None => lift (inr (none_has_no "query"))
     | Some index =>
         call (EvQueryData query_text top_k) (query_data index query_text top_k)
     end)
    (fun _ => ret PNone).

Definition SYSTEM_PROMPT : pystr :=
  lit "You are an AI digital twin. Answer questions as if you are the person, speaking in first person about your background, skills, and experience.".

Definition ERROR_MARKER : pystr := lit " Error generating response: ".

(** [generate_response_with_groq], lines 408-430. *)
Definition generate_response_with_groq (client : option Groq) (prompt : pystr)
    (model : pystr) : io pystr :=
  try_except
    (match client with
     | None => lift (inr (none_has_no "chat"))
     | Some client =>
         let req := {| req_model := model; req_system := SYSTEM_PROMPT;
                       req_user := prompt; req_temperature := 0.7%float;
                       req_max_tokens := 500 |} in
         completion <- call (EvChat req) (create client req) ;;
         lift (ebind (getattr completion "choices") (fun choices =>
               ebind (getitem0 choices) (fun choice =>
               ebind (getattr choice "message") (fun message =>
               ebind (getattr message "content") py_strip))))
     end)
    (fun e => ret (ERROR_MARKER ++ exn_msg e)).

(** [f"{score:.3f}"] needs a number. *)
Definition format_3f (score : pyval) : exc unit :=
  match score with
  | PInt _ | PFloat _ | PBool _ => inl tt
  | PStr _ =>
      inr (Exn ValueError
             (lit "Unknown format code 'f' for object of type 'str'"))
  | _ =>
      inr (Exn TypeError
             (lit "unsupported format string passed to " ++ type_name score
              ++ lit ".__format__"))
  end.

(** The body of the loop of lines 445-453: the line one result adds to
    [top_docs], if any. *)
Definition top_doc (result : pyval) : exc (option pystr) :=
  ebind (getattr result "metadata") (fun m =>
  ebind (as_dict (m |or| PDict [])) (fun metadata =>
  let title := dict_get metadata "title" (PStr (lit "Information")) in
  let content := dict_get metadata "content" (PStr []) in
  ebind (getattr result "score") (fun score =>
  ebind (format_3f score) (fun _ =>
  if truthy content
  then inl (Some (fmt title ++ lit ": " ++ fmt content))
  else inl None)))).

Fixpoint somes {A} (l : list (option A)) : list A :=
  match l with
  | [] => []
  | Some x :: l' => x :: somes l'
  | None :: l' => somes l'
  end.

(** Lines 444-453. *)
Definition top_docs (results : pyval) : exc (list pystr) :=
  ebind (iterate results) (fun rs =>
  ebind (emap top_doc rs) (fun docs => inl (somes docs))).

Definition prompt (context question : pystr) : pystr :=
  lit "Based on the following information about yourself, answer the question."
  ++ NL ++ lit "Speak in first person as if you are describing your own background."
  ++ NL ++ NL ++ lit "Your Information:" ++ NL ++ context ++ NL ++ NL
  ++ lit "Question: " ++ question ++ NL ++ NL
  ++ lit "Provide a helpful, professional response:".

Definition NO_INFORMATION : pystr :=
  lit "I don't have specific information about that topic.".
Definition NO_DETAILS : pystr :=
  lit "I found some information but couldn't extract details.".
Definition QUERY_ERROR : pystr := lit " Error during query: ".

(** [rag_query], lines 432-476. *)
Definition rag_query (index : option Index) (groq_client : option Groq)
    (question : pystr) : io pystr :=
  try_except
    (results <- query_vectors index question 3 ;;
     if negb (truthy results) then ret NO_INFORMATION
     else
       n <- lift (py_len results) ;;
       if (n =? 0)%nat then ret NO_INFORMATION
       else
         top_docs <- lift (top_docs results) ;;
         match top_docs with
         | [] => ret NO_DETAILS
         | _ =>
             let context := join (NL ++ NL) top_docs in
             generate_response_with_groq groq_client (prompt context question)
               DEFAULT_MODEL
         end)
    (fun e => ret (QUERY_ERROR ++ exn_msg e)).

End Program.
End Builtin.

(* ------------------------------------------------------------------ *)
(** ** Test doubles *)

(** An encoder whose native width is [width], whatever the text. *)
Definition mock_model (width : nat) : model :=
  {| encode := fun _ => inl (repeat 1%float width) |}.

(** An encoder that always raises. *)
Definition failing_model : model :=
  {| encode := fun _ => inr (Exn BackendError (lit "encode failed")) |}.

Definition loaded (m : model) : globals := {| _embedding_model := Some m |}.
Definition fresh : globals := {| _embedding_model := None |}.

(** An index that answers every query with [res]. *)
Definition mock_index (res : pyval) : Index :=
  {| query := fun _ _ => inl res; query_data := fun _ _ => inl res |}.

(** An index whose calls raise. *)
Definition failing_index : Index :=
  {| query := fun _ _ => inr (Exn BackendError (lit "network failure"));
     query_data := fun _ _ => inr (Exn BackendError (lit "network failure")) |}.

(** The SDK shape of a completion: [completion.choices[0].message.content]. *)
Definition completion_obj (content : pyval) : pyval :=
  PObj [(lit "choices",
         PList [PObj [(lit "message", PObj [(lit "content", content)])]])].

(** The same completion as a plain mapping. *)
Definition completion_dict (content : pyval) : pyval :=
  PDict [(lit "choices",
          PList [PDict [(lit "message", PDict [(lit "content", content)])]])].

(** A generator that echoes the user prompt. *)
Definition echo_client : Groq :=
  {| create := fun req => inl (completion_obj (PStr (req_user req))) |}.

(** A generator that always raises [e]. *)
Definition failing_client (e : exn) : Groq := {| create := fun _ => inr e |}.

(** Built-in [str], for the closed examples; they never reach it on a
    value that is not a string. *)
Definition str_stub (v : pyval) : pystr :=
  match v with PStr s => s | PNone => lit "None" | _ => lit "<object>" end.

(* ------------------------------------------------------------------ *)
(** ** Vocabulary of the statements *)

(** [t] is [s] without its leading and trailing whitespace. *)
Definition trims_to (s t : pystr) : Prop :=
  (exists l r, s = l ++ t ++ r
               /\ forallb is_space l = true /\ forallb is_space r = true)
  /\ (forall c rest, t = c :: rest -> is_space c = false)
  /\ (forall init c, t = init ++ [c] -> is_space c = false).

(** The completion is an object whose [choices[0].message.content] is the
    string [s]. *)
Definition has_sdk_content (completion : pyval) (s : pystr) : Prop :=
  exists choices choice message,
    getattr completion "choices" = inl choices
    /\ getitem0 choices = inl choice
    /\ getattr choice "message" = inl message
    /\ getattr message "content" = inl (PStr s).

(** The completion is a plain mapping with the same nested keys. *)
Definition has_mapping_content (completion : pyval) (s : pystr) : Prop :=
  exists d choices cd md,
    completion = PDict d
    /\ assoc (lit "choices") d = Some choices
    /\ getitem0 choices = inl (PDict cd)
    /\ assoc (lit "message") cd = Some (PDict md)
    /\ assoc (lit "content") md = Some (PStr s).

(** The completion has neither shape. *)
Definition has_other_shape (completion : pyval) : Prop :=
  Manual.hasattr completion "choices" = false /\ is_dict completion = false.

(** The request [generate_response_with_groq] sends. *)
Definition sent (model prompt : pystr) (temperature : float) (max_tokens : Z)
  : chat_request :=
  {| req_model := model; req_system := Manual.SYSTEM_PROMPT;
     req_user := prompt; req_temperature := temperature;
     req_max_tokens := max_tokens |}.

Definition is_list (v : pyval) : bool :=
  match v with PList _ => true | _ => false end.

(** A value a [for] loop can run over: a list, a string (by characters)
    or a mapping (by keys). *)
Definition iterable (v : pyval) : bool :=
  match v with
  | PList _ | PStr _ | PDict _ => true
  | _ => false
  end.

(** What an item of a response carries as metadata: its [metadata]
    attribute when it is an object, its [metadata] key when it is a
    mapping, nothing otherwise. *)
Definition metadata_field (h : pyval) : option pyval :=
  match h with
  | PObj attrs => assoc (lit "metadata") attrs
  | PDict d => assoc (lit "metadata") d
  | _ => None
  end.

(** An item whose metadata is truthy and not a mapping. *)
Definition unreadable (h : pyval) : bool :=
  match metadata_field h with
  | Some m => truthy m && negb (is_dict m)
  | None => false
  end.

(** An item that is neither an object nor a mapping, such as a number or
    a character: it has no score and no metadata to offer. *)
Definition not_a_hit (h : pyval) : bool :=
  match h with
  | PObj _ | PDict _ => false
  | _ => true
  end.


Fixpoint prefixb (p s : pystr) : bool :=
  match p, s with
  | [], _ => true
  | x :: p', y :: s' => N.eqb x y && prefixb p' s'
  | _ :: _, [] => false
  end.

Fixpoint containsb (needle hay : pystr) : bool :=
  prefixb needle hay ||
  match hay with
  | [] => false
  | _ :: hay' => containsb needle hay'
  end.

(** One hit of the backend, by its score and metadata, in the two access
    styles, and a list of them in the four response shapes. *)
Definition mapping_hit (score : pyval) (md : list (pystr * pyval)) : pyval :=
  PDict [(lit "score", score); (lit "metadata", PDict md)].

Definition object_hit (score : pyval) (md : list (pystr * pyval)) : pyval :=
  PObj [(lit "score", score); (lit "metadata", PDict md)].

Definition hit_data : Type := (pyval * list (pystr * pyval))%type.

Definition results_response (hs : list hit_data) : pyval :=
  PDict [(lit "results", PList (map (fun h => mapping_hit (fst h) (snd h)) hs))].

Definition matches_response (hs : list hit_data) : pyval :=
  PDict [(lit "matches", PList (map (fun h => mapping_hit (fst h) (snd h)) hs))].

Definition bare_response (hs : list hit_data) : pyval :=
  PList (map (fun h => mapping_hit (fst h) (snd h)) hs).

Definition object_response (hs : list hit_data) : pyval :=
  PList (map (fun h => object_hit (fst h) (snd h)) hs).

(** The display text of a hit: content, then text, then title, then "". *)
Definition display_text (md : list (pystr * pyval)) : pyval :=
  dict_get md "content" PNone |or| dict_get md "text" PNone
  |or| dict_get md "title" (PStr []).

(** The hit [query_vectors] hands on. *)
Definition normalized (score : pyval) (md : list (pystr * pyval)) : pyval :=
  PDict [(lit "score", score); (lit "metadata", PDict md);
         (lit "text", display_text md)].

(** A query result of the index, attribute style. *)
Definition index_result (score : pyval) (md : list (pystr * pyval)) : pyval :=
  PObj [(lit "id", PStr (lit "c1")); (lit "score", score);
        (lit "metadata", PDict md)].

Definition QUESTION : pystr := lit "What are your skills?".
Definition LLAMA : pystr := lit "llama-3.1-8b-instant".

(** The index holds the chunk [{id:"c1", title:"Skills",
    content:"Python, Go"}] and returns it for every query. *)
Definition skills_index : Index :=
  mock_index
    (PList [index_result (PFloat 0.5%float)
              [(lit "title", PStr (lit "Skills"));
               (lit "content", PStr (lit "Python, Go"))]]).

(** A hit with a string title and a string text, as the context loop
    receives it from [query_vectors]. *)
Definition text_hit (title text : pystr) : pyval :=
  PDict [(lit "score", PNone);
         (lit "metadata", PDict [(lit "title", PStr title)]);
         (lit "text", PStr text)].

(** The line of the context block for a title and a text. *)
Definition context_line (title text : pystr) : pystr :=
  match title with
  | [] => text
  | _ => title ++ lit ": " ++ text
  end.

Definition is_load (e : event) : bool :=
  match e with EvLoadModel _ => true | _ => false end.

Definition is_encode (e : event) : bool :=
  match e with EvEncode _ => true | _ => false end.

Definition is_query (e : event) : bool :=
  match e with EvQuery _ _ | EvQueryData _ _ => true | _ => false end.

(** How many events of a kind a trace holds. *)
Definition count_events (kind : event -> bool) (t : list event) : nat :=
  length (filter kind t).

(* ------------------------------------------------------------------ *)
(** ** Ingestion: the index as a store *)

(** One entry of [index.upsert(vectors=...)]: the id, the raw text or
    vector, and the metadata mapping. *)
Record vector_entry := {
  ve_id : pyval;
  ve_data : pyval;
  ve_metadata : list (pystr * pyval)
}.

(** An index seen from the ingestion side: the handle the queries use,
    and the outcome of [index.info()] and [index.upsert(...)]. *)
Record Store := {
  store_index : Index;
  info : exc pyval;
  upsert : list vector_entry -> exc unit
}.

Inductive setup_event :=
| SeConnect (url token : pystr)          (* Index(url=..., token=...) *)
| SeFromEnv                              (* Index.from_env() *)
| SeInfo                                 (* index.info() *)
| SeRead                                 (* open(JSON_FILE), json.load *)
| SeUpsert (vectors : list vector_entry). (* index.upsert(vectors=...) *)

Definition is_upsert (e : setup_event) : bool :=
  match e with SeUpsert _ => true | _ => false end.

Definition is_read (e : setup_event) : bool :=
  match e with SeRead => true | _ => false end.

(** The handlers of the setup code never look at the exception they
    catch, so a failing step is [None] there. *)
Definition ok {A} (r : exc A) : option A :=
  match r with inl x => Some x | inr _ => None end.

Definition obind {A B} (m : option A) (f : A -> option B) : option B :=
  match m with Some x => f x | None => None end.

Fixpoint omap {A B} (f : A -> option B) (l : list A) : option (list B) :=
  match l with
  | [] => Some []
  | x :: l' =>
      obind (f x) (fun y => obind (omap f l') (fun ys => Some (y :: ys)))
  end.

(** A setup computation: a trace of calls, and a result, or [None] when
    an exception is on its way up. *)
Definition sio (A : Type) : Type := (list setup_event * option A)%type.

Definition sret {A} (x : A) : sio A := ([], Some x).

Definition sbind {A B} (m : sio A) (f : A -> sio B) : sio B :=
  match m with
  | (t, Some x) => let '(t', r) := f x in (t ++ t', r)
  | (t, None) => (t, None)
  end.

Definition slift {A} (r : option A) : sio A := ([], r).

Definition scall {A} (ev : setup_event) (r : exc A) : sio A := ([ev], ok r).

(** [try: body  except Exception: handler] *)
Definition stry {A} (body : sio A) (handler : sio A) : sio A :=
  match body with
  | (t, Some x) => (t, Some x)
  | (t, None) => let '(t', r) := handler in (t ++ t', r)
  end.

(** [d.update({k: v})]: the value of an existing key is replaced where it
    stands, a new key goes to the end. *)
Fixpoint dict_set (d : list (pystr * pyval)) (k : pystr) (v : pyval)
  : list (pystr * pyval) :=
  match d with
  | [] => [(k, v)]
  | (k', v') :: d' =>
      if str_eqb k k' then (k', v) :: d' else (k', v') :: dict_set d' k v
  end.

(** [o[:n]] *)
Definition slice_to (o : pyval) (n : nat) : option pyval :=
  match o with
  | PStr s => Some (PStr (firstn n s))
  | PList l => Some (PList (firstn n l))
  | _ => None
  end.

(** [o[key]] with a string key: [None] for the [KeyError] of a mapping
    without the key and for the [TypeError] of any other value. *)
Definition getitem_key (o : pyval) (key : string) : option pyval :=
  match o with
  | PDict d => assoc (lit key) d
  | _ => None
  end.

(** [getattr(o, name, default)] *)
Definition getattr_default (o : pyval) (name : string) (default : pyval)
  : pyval :=
  match o with
  | PObj attrs =>
      match assoc (lit name) attrs with Some v => v | None => default end
  | _ => default
  end.

(** [x == 0] *)
Definition eq_zero (x : pyval) : bool :=
  match x with
  | PInt z => (z =? 0)%Z
  | PFloat f => PrimFloat.eqb f 0%float
  | PBool b => negb b
  | _ => false
  end.

(** What the environment of a setup offers. *)
Record setup_world := {
  Index_cls : option (pystr -> pystr -> exc Store); (* [None]: import failed *)
  from_env : exc Store;                            (* Index.from_env() *)
  getenv : string -> option pystr;                 (* os.getenv *)
  json_exists : bool;                              (* os.path.exists(JSON_FILE) *)
  json_load : exc pyval                            (* open and json.load *)
}.

(* ------------------------------------------------------------------ *)
(** ** digitaltwin_rag.py, first program: [setup_vector_database] *)

Module ManualSetup.
Section Program.

Variable py_str : pyval -> pystr.

(** [int] on a float and on a string. *)
Variable int_of_float : float -> option Z.
Variable int_of_str : pystr -> option Z.

Definition fmt (v : pyval) : pystr :=
  match v with PStr s => s | _ => py_str v end.

(** [int(x)] *)
Definition py_int (x : pyval) : option Z :=
  match x with
  | PInt z => Some z
  | PBool b => Some (if b then 1 else 0)%Z
  | PFloat f => int_of_float f
  | PStr s => int_of_str s
  | _ => None
  end.

(** Lines 108-113: the vector count read off [info], 0 on any failure. *)
Definition current_count (info : pyval) : Z :=
  match info with
  | PNone => 0%Z
  | _ =>
      let fallback := getattr_default info "vectorCount" (PInt 0) |or| PInt 0 in
      match py_int (getattr_default info "vector_count" fallback) with
      | Some z => z
      | None => 0%Z
      end
  end.

(** The body of the chunk loop, lines 133-139. *)
Definition vector_of_chunk (c : pyval) : option vector_entry :=
  obind (ok (as_dict c)) (fun cd =>
  let id0 := dict_get cd "id" PNone |or| dict_get cd "uid" PNone in
  obind (if truthy id0 then Some id0
         else slice_to (dict_get cd "title" (PStr [])) 8) (fun id_src =>
  let cid := fmt id_src in
  let title := dict_get cd "title" (PStr []) in
  let content :=
    dict_get cd "content" PNone |or| dict_get cd "text" PNone |or| PStr [] in
  let meta :=
    match dict_get cd "metadata" (PDict []) with PDict m => m | _ => [] end in
  let meta := dict_set meta (lit "title") title in
  let enriched :=
    if truthy title then PStr (fmt title ++ lit ": " ++ fmt content)
    else content in
  Some {| ve_id := PStr cid; ve_data := enriched; ve_metadata := meta |})).

(** Lines 116-148: the ingestion into an index that looks empty.  Every
    way out of it that does not raise, the early ones too, goes on to
    [return index]. *)
Definition ingest (w : setup_world) (store : Store) : sio unit :=
  if json_exists w then
    match json_load w with
    | inr e => scall SeRead (inl tt)
    | inl data =>
        sbind (scall SeRead (inl tt)) (fun _ =>
        sbind (slift (ok (as_dict data))) (fun dd =>
        let chunks :=
          dict_get dd "content_chunks" PNone |or| dict_get dd "chunks" PNone
          |or| PList [] in
        if negb (truthy chunks) then sret tt
        else
          sbind (slift (ok (iterate chunks))) (fun cs =>
          sbind (slift (omap vector_of_chunk cs)) (fun vectors =>
          match vectors with
          | [] => sret tt
          | _ =>
              stry (scall (SeUpsert vectors) (upsert store vectors))
                   (sret tt)
          end))))
    end
  else sret tt.

(** [setup_vector_database], lines 80-154. *)
Definition setup_vector_database (w : setup_world) : sio (option Store) :=
  match Index_cls w with
  | None => sret None
  | Some ctor =>
      match getenv w "UPSTASH_VECTOR_REST_URL",
            getenv w "UPSTASH_VECTOR_REST_TOKEN" with
      | Some (c :: url), Some (d :: token) =>
          stry
            (sbind (scall (SeConnect (c :: url) (d :: token))
                          (ctor (c :: url) (d :: token))) (fun store =>
             sbind (stry (scall SeInfo (info store))
                         (sret PNone)) (fun info =>
             sbind (if (current_count info =? 0)%Z then ingest w store
                    else sret tt) (fun _ =>
             sret (Some store)))))
            (sret None)
      | _, _ => sret None
      end
  end.

End Program.
End ManualSetup.

(* ------------------------------------------------------------------ *)
(** ** digitaltwin_rag.py, second program: [setup_vector_database] *)

Module BuiltinSetup.
Section Program.

Variable py_str : pyval -> pystr.

Definition fmt (v : pyval) : pystr :=
  match v with PStr s => s | _ => py_str v end.

(** The body of the chunk loop, lines 370-383. *)
Definition vector_of_chunk (chunk : pyval) : option vector_entry :=
  obind (getitem_key chunk "title") (fun title =>
  obind (getitem_key chunk "content") (fun content =>
  let enriched_text := fmt title ++ lit ": " ++ fmt content in
  obind (getitem_key chunk "id") (fun id =>
  obind (getitem_key chunk "type") (fun type =>
  obind (ok (as_dict chunk)) (fun cd =>
  obind (ok (as_dict (dict_get cd "metadata" (PDict [])))) (fun md =>
  let category := dict_get md "category" (PStr []) in
  let tags := dict_get md "tags" (PList []) in
  Some {| ve_id := id; ve_data := PStr enriched_text;
         ve_metadata :=
           [(lit "title", title); (lit "type", type);
            (lit "content", content); (lit "category", category);
            (lit "tags", tags)] |})))))).

(** [setup_vector_database], lines 335-393. *)
Definition setup_vector_database (w : setup_world) : sio (option Store) :=
  stry
    (sbind (scall SeFromEnv (from_env w)) (fun store =>
     sbind (stry (sbind (scall SeInfo (info store)) (fun info =>
                  sret (getattr_default info "vector_count" (PInt 0))))
                 (sret (PInt 0))) (fun current_count =>
     if eq_zero current_count then
       sbind (scall SeRead (json_load w)) (fun profile_data =>
       sbind (slift (ok (as_dict profile_data))) (fun pd =>
       let content_chunks := dict_get pd "content_chunks" (PList []) in
       if negb (truthy content_chunks) then sret None
       else
         sbind (slift (ok (iterate content_chunks))) (fun cs =>
         sbind (slift (omap vector_of_chunk cs)) (fun vectors =>
         sbind (scall (SeUpsert vectors) (upsert store vectors)) (fun _ =>
         sret (Some store))))))
     else sret (Some store))))
    (sret None).

End Program.
End BuiltinSetup.

(* ------------------------------------------------------------------ *)
(** ** embed_digitaltwin.py: the upload loop of [main] *)

Module EmbedDigitalTwin.

(** The entry built for one chunk, lines 184-193. *)
Definition entry_of_chunk (chunk : pyval) : option vector_entry :=
  obind (getitem_key chunk "id") (fun id =>
  obind (getitem_key chunk "text") (fun data =>
  obind (getitem_key chunk "text") (fun text =>
  obind (getitem_key chunk "category") (fun category =>
  obind (getitem_key chunk "title") (fun title =>
  Some {| ve_id := id; ve_data := data;
          ve_metadata := [(lit "text", text); (lit "category", category);
                          (lit "title", title)] |}))))).

(** Lines 179-197: one upsert per chunk, each in its own [try]. *)
Fixpoint upload (store : Store) (chunks : list pyval) : sio unit :=
  match chunks with
  | [] => sret tt
  | chunk :: rest =>
      sbind (stry (sbind (slift (entry_of_chunk chunk)) (fun entry =>
                   scall (SeUpsert [entry]) (upsert store [entry])))
                  (sret tt)) (fun _ =>
      upload store rest)
  end.

End EmbedDigitalTwin.

(* ------------------------------------------------------------------ *)
(** ** embed_simple.py: [add_chunk] and the loop that calls it *)

(** One element of the list [vectors] of the script. *)
Record simple_entry := {
  se_id : pystr;
  se_vector : list float;
  se_metadata : list (pystr * pyval)
}.

(** The two globals [add_chunk] writes. *)
Record script_state := {
  vectors : list simple_entry;
  id_counter : nat
}.

Module EmbedSimpleChunks.
Section Program.

(** The global [model] of the script. *)
Variable m : model.

Variable py_str : pyval -> pystr.

(** [json.dumps(v, ensure_ascii=False)] on a list or a mapping read from
    the profile. *)
Variable json_dumps : pyval -> pystr.

Definition fmt (v : pyval) : pystr :=
  match v with PStr s => s | _ => py_str v end.

(** The part of the text for one item of a mapping, lines 73-76. *)
Definition part (kv : pystr * pyval) : pystr :=
  match snd kv with
  | PList _ | PDict _ => fst kv ++ lit ": " ++ json_dumps (snd kv)
  | v => fst kv ++ lit ": " ++ fmt v
  end.

(** Lines 69-79: the readable text of a chunk. *)
Definition chunk_text (category : pystr) (content : pyval) : pystr :=
  match content with
  | PDict d => (category ++ NL) ++ join NL (map part d)
  | _ => category ++ lit ": " ++ fmt content
  end.

(** [add_chunk], lines 66-95: the length of the text, and the globals
    after the call. *)
Definition add_chunk (category : pystr) (content : pyval) (section : pystr)
    (st : script_state) : exc (nat * script_state) :=
  let text := chunk_text category content in
  ebind (EmbedSimple.create_embedding m text) (fun embedding =>
  let entry :=
    {| se_id := lit "chunk_" ++ decimal (id_counter st);
       se_vector := embedding;
       se_metadata := [(lit "text", PStr (firstn 500 text));
                       (lit "category", PStr category);
                       (lit "section", PStr section)] |} in
  inl (length text,
       {| vectors := vectors st ++ [entry];
          id_counter := id_counter st + 1 |})).

(** Lines 111-113: [add_chunk] on every chunk of the list. *)
Fixpoint add_chunks (chunks : list (pystr * pyval * pystr))
    (st : script_state) : exc script_state :=
  match chunks with
  | [] => inl st
  | (cat, content, section) :: rest =>
      ebind (add_chunk cat content section st) (fun r =>
      add_chunks rest (snd r))
  end.

End Program.
End EmbedSimpleChunks.

(* ------------------------------------------------------------------ *)
(** ** The interactive loops *)

(** What [input()] gives: a line, or Ctrl-C. *)
Inductive input := Line (s : pystr) | KeyboardInterrupt.

(** How a loop ends: the break on exit or quit, the handled Ctrl-C, the
    end of the input ([EOFError]) or an exception, both on their way up. *)
Inductive ending := Quit | Interrupted | Eof | Raised (e : exn).

(** [q in ('exit', 'quit')] *)
Definition is_exit (q : pystr) : bool :=
  str_eqb q (lit "exit") || str_eqb q (lit "quit").

Module ManualMain.
Section Program.

Variable SentenceTransformer : option (pystr -> exc model).
Variable DEFAULT_MODEL : pystr.
Variable py_str : pyval -> pystr.

(** [str.lower] *)
Variable py_lower : pystr -> pystr.

Variable index : option Index.
Variable groq_client : option Groq.

(** The loop of [main], lines 285-296: the calls made, the globals, the
    responses printed, and how the loop ended. *)
Fixpoint main_loop (inputs : list input) (g : globals)
  : list event * globals * list pystr * ending :=
  match inputs with
  | [] => ([], g, [], Eof)
  | KeyboardInterrupt :: _ => ([], g, [], Interrupted)
  | Line s :: rest =>
      match strip s with
      | [] => main_loop rest g
      | q =>
          if is_exit (py_lower q) then ([], g, [], Quit)
          else
            match Manual.rag_query SentenceTransformer DEFAULT_MODEL py_str
                    index groq_client q 3 g with
            | (t, g', inl resp) =>
                let '(t', g'', out, fin) := main_loop rest g' in
                (t ++ t', g'', resp :: out, fin)
            | (t, g', inr e) => (t, g', [], Raised e)
            end
      end
  end.

End Program.
End ManualMain.

Module BuiltinMain.
Section Program.

Variable py_str : pyval -> pystr.
Variable py_lower : pystr -> pystr.
Variable index : option Index.
Variable groq_client : option Groq.

(** The loop of [main], lines 508-516; Ctrl-C is not handled there. *)
Fixpoint main_loop (inputs : list input) (g : globals)
  : list event * globals * list pystr * ending :=
  match inputs with
  | [] => ([], g, [], Eof)
  | KeyboardInterrupt :: _ => ([], g, [], Interrupted)
  | Line question :: rest =>
      if is_exit (py_lower question) then ([], g, [], Quit)
      else
        match strip question with
        | [] => main_loop rest g
        | _ =>
            match Builtin.rag_query py_str index groq_client question g with
            | (t, g', inl answer) =>
                let '(t', g'', out, fin) := main_loop rest g' in
                (t ++ t', g'', answer :: out, fin)
            | (t, g', inr e) => (t, g', [], Raised e)
            end
        end
  end.

End Program.
End BuiltinMain.

(* ------------------------------------------------------------------ *)
(** ** test_rag.py: [query_digital_twin] *)

Module TestRagQuery.
Section Program.

(** The class imported at line 33: [None] when the import fails. *)
Variable SentenceTransformer : option (pystr -> exc model).

(** The module-level handles of lines 14-19. *)
Variable index : Index.
Variable groq_client : Groq.

Variable py_str : pyval -> pystr.

(** [f"{score:.2f}"] and [f"{score:.3f}"], which raise on a value that
    is not a number. *)
Variable format_2f : pyval -> exc pystr.
Variable format_3f : pyval -> exc pystr.

Definition fmt (v : pyval) : pystr :=
  match v with PStr s => s | _ => py_str v end.

Definition MODEL_NAME : pystr := lit "sentence-transformers/all-MiniLM-L6-v2".

(** The body of the loop of lines 58-64, for the [i]-th result. *)
Definition context_part (i : nat) (result : pyval) : exc pystr :=
  ebind (getattr result "metadata") (fun metadata =>
  ebind (as_dict metadata) (fun md =>
  let text := dict_get md "text" (PStr []) in
  ebind (getattr result "score") (fun score =>
  let category := dict_get md "category" (PStr (lit "Unknown")) in
  ebind (format_2f score) (fun s2 =>
  ebind (format_3f score) (fun _ =>
  inl (lit "[Context " ++ decimal i ++ lit " - " ++ fmt category
       ++ lit "] (Relevance: " ++ s2 ++ lit ")" ++ NL ++ fmt text)))))).

(** [enumerate(results, 1)] through the loop. *)
Fixpoint context_parts (i : nat) (results : list pyval) : exc (list pystr) :=
  match results with
  | [] => inl []
  | result :: rest =>
      ebind (context_part i result) (fun p =>
      ebind (context_parts (S i) rest) (fun ps => inl (p :: ps)))
  end.

(** The f-string of lines 71-84. *)
Definition prompt (context question : pystr) : pystr :=
  lit "Based on the following information about Christian Jay Maquiraya, answer the question."
  ++ NL ++ NL ++ lit "Context:" ++ NL ++ context ++ NL ++ NL
  ++ lit "Question: " ++ question ++ NL ++ NL
  ++ lit "Instructions:" ++ NL
  ++ lit "- Answer based ONLY on the context provided" ++ NL
  ++ lit "- Be specific and accurate" ++ NL
  ++ lit "- Keep the response concise (2-3 sentences)" ++ NL
  ++ lit "- If the context doesn't contain enough information, say so"
  ++ NL ++ NL ++ lit "Answer:".

Definition SYSTEM_PROMPT : pystr :=
  lit "You are Christian's AI assistant. Answer questions about Christian using only the provided context.".

Definition NO_INFORMATION : pystr :=
  CROSS ++ lit " No relevant information found".
Definition ERROR_MARKER : pystr := CROSS ++ lit " Error: ".

(** [query_digital_twin], lines 21-111.  The handler of line 110 reads
    only the message of what it catches, so the [ImportError] of a failed
    import is an exception like the others here. *)
Definition query_digital_twin (question : pystr) (top_k : Z) : io pyval :=
  try_except
    (model <-
       match SentenceTransformer with
       | None =>
           lift (inr (Exn BackendError
                        (lit "No module named 'sentence_transformers'")))
       | Some ctor => call (EvLoadModel MODEL_NAME) (ctor MODEL_NAME)
       end ;;
     query_embedding <-
       call (EvEncode question) (TestRag.query_embedding model question) ;;
     results <-
       call (EvQuery query_embedding top_k)
            (query index query_embedding top_k) ;;
     if negb (truthy results) then ret (PStr NO_INFORMATION)
     else
       _ <- lift (py_len results) ;;
       rs <- lift (iterate results) ;;
       context_parts <- lift (context_parts 1 rs) ;;
       let context := join (NL ++ NL) context_parts in
       let req := {| req_model := lit "llama-3.1-8b-instant";
                     req_system := SYSTEM_PROMPT;
                     req_user := prompt context question;
                     req_temperature := 0.3%float;
                     req_max_tokens := 300 |} in
       completion <- call (EvChat req) (create groq_client req) ;;
       lift (ebind (getattr completion "choices") (fun choices =>
             ebind (getitem0 choices) (fun choice =>
             ebind (getattr choice "message") (fun message =>
             getattr message "content")))))
    (fun e => ret (PStr (ERROR_MARKER ++ exn_msg e))).

End Program.
End TestRagQuery.

(* ------------------------------------------------------------------ *)
(** ** Vocabulary of the statements on the loops and the scripts *)

(** Asking the questions of a list one after the other, as a loop does:
    the calls, the globals, the answers, and [fin] unless a call raised. *)
Fixpoint ask_all (ask : pystr -> io pystr) (qs : list pystr) (fin : ending)
    (g : globals) : list event * globals * list pystr * ending :=
  match qs with
  | [] => ([], g, [], fin)
  | q :: qs' =>
      match ask q g with
      | (t, g', inl resp) =>
          let '(t', g'', out, fin') := ask_all ask qs' fin g' in
          (t ++ t', g'', resp :: out, fin')
      | (t, g', inr e) => (t, g', [], Raised e)
      end
  end.

(** The questions the loop of the first program asks on a given input:
    the stripped lines that are not blank, up to the first exit, quit or
    Ctrl-C. *)
Fixpoint manual_questions (py_lower : pystr -> pystr) (inputs : list input)
  : list pystr :=
  match inputs with
  | [] => []
  | KeyboardInterrupt :: _ => []
  | Line s :: rest =>
      match strip s with
      | [] => manual_questions py_lower rest
      | q => if is_exit (py_lower q) then []
             else q :: manual_questions py_lower rest
      end
  end.

Fixpoint manual_ending (py_lower : pystr -> pystr) (inputs : list input)
  : ending :=
  match inputs with
  | [] => Eof
  | KeyboardInterrupt :: _ => Interrupted
  | Line s :: rest =>
      match strip s with
      | [] => manual_ending py_lower rest
      | q => if is_exit (py_lower q) then Quit
             else manual_ending py_lower rest
      end
  end.

(** The same for the loop of the second program: the lines as typed,
    when they are not blank, up to the first exit or quit. *)
Fixpoint builtin_questions (py_lower : pystr -> pystr) (inputs : list input)
  : list pystr :=
  match inputs with
  | [] => []
  | KeyboardInterrupt :: _ => []
  | Line s :: rest =>
      if is_exit (py_lower s) then []
      else match strip s with
           | [] => builtin_questions py_lower rest
           | _ => s :: builtin_questions py_lower rest
           end
  end.

Fixpoint builtin_ending (py_lower : pystr -> pystr) (inputs : list input)
  : ending :=
  match inputs with
  | [] => Eof
  | KeyboardInterrupt :: _ => Interrupted
  | Line s :: rest =>
      if is_exit (py_lower s) then Quit else builtin_ending py_lower rest
  end.

(** Every vector sent to the index in a trace has [n] components. *)
Definition queries_have_dimension (n : nat) (t : list event) : Prop :=
  Forall (fun e => match e with
                   | EvQuery v _ => length v = n
                   | _ => True
                   end) t.

(** The id [add_chunk] gives the [i]-th chunk. *)
Definition chunk_id (i : nat) : pystr := lit "chunk_" ++ decimal i.

(** What every entry of [vectors] satisfies: a vector of 1536 values and
    a metadata text of at most 500 characters. *)
Definition well_sized (e : simple_entry) : Prop :=
  length (se_vector e) = 1536
  /\ exists text,
       assoc (lit "text") (se_metadata e) = Some (PStr text)
       /\ length text <= 500.

(** The numbering and the sizes [add_chunk] keeps: the counter is one
    more than the number of entries, the ids are chunk_1, chunk_2, ... in
    order, and every entry is well sized. *)
Definition numbered (st : script_state) : Prop :=
  id_counter st = S (length (vectors st))
  /\ map se_id (vectors st) = map chunk_id (seq 1 (length (vectors st)))
  /\ Forall well_sized (vectors st).

(* ------------------------------------------------------------------ *)
(** ** Test doubles of the ingestion side *)

(** A constructor of the embedding model that returns [m], and one that
    raises. *)
Definition mock_loader (m : model) : pystr -> exc model := fun _ => inl m.

Definition failing_loader : pystr -> exc model :=
  fun _ => inr (Exn BackendError (lit "model not found")).

(** A store with fixed outcomes of [info()] and [upsert(...)]. *)
Definition mock_store (info_result : exc pyval) (upsert_result : exc unit)
  : Store :=
  {| store_index := mock_index (PList []);
     info := info_result;
     upsert := fun _ => upsert_result |}.

Definition REST_URL : pystr := lit "https://example.upstash.io".
Definition REST_TOKEN : pystr := lit "secret".

(** An environment with both credentials set, in which every way to the
    index gives [store] and the profile file reads as [profile]. *)
Definition mock_world (store : Store) (profile : exc pyval) : setup_world :=
  {| Index_cls := Some (fun _ _ => inl store);
     from_env := inl store;
     getenv := fun name =>
       if String.eqb name "UPSTASH_VECTOR_REST_URL" then Some REST_URL
       else if String.eqb name "UPSTASH_VECTOR_REST_TOKEN" then Some REST_TOKEN
       else None;
     json_exists := true;
     json_load := profile |}.

(** An environment without the [upstash_vector] package. *)
Definition bare_world : setup_world :=
  {| Index_cls := None;
     from_env := inr (Exn BackendError (lit "no credentials"));
     getenv := fun _ => None;
     json_exists := false;
     json_load := inr (Exn BackendError (lit "no such file")) |}.

(** A chunk of the profile, as a mapping and as the profile around it. *)
Definition skills_chunk : list (pystr * pyval) :=
  [(lit "id", PStr (lit "c1")); (lit "title", PStr (lit "Skills"));
   (lit "type", PStr (lit "skills"));
   (lit "content", PStr (lit "Python, Go"))].

(** The same chunk without its [type]. *)
Definition untyped_chunk : list (pystr * pyval) :=
  [(lit "id", PStr (lit "c1")); (lit "title", PStr (lit "Skills"));
   (lit "content", PStr (lit "Python, Go"))].

Definition profile_of (chunk : list (pystr * pyval)) : list (pystr * pyval) :=
  [(lit "content_chunks", PList [PDict chunk])].

(** The vector each program builds from [skills_chunk]. *)
Definition manual_skills_vector : vector_entry :=
  {| ve_id := PStr (lit "c1");
     ve_data := PStr (lit "Skills: Python, Go");
     ve_metadata := [(lit "title", PStr (lit "Skills"))] |}.

Definition builtin_skills_vector : vector_entry :=
  {| ve_id := PStr (lit "c1");
     ve_data := PStr (lit "Skills: Python, Go");
     ve_metadata :=
       [(lit "title", PStr (lit "Skills")); (lit "type", PStr (lit "skills"));
        (lit "content", PStr (lit "Python, Go"));
        (lit "category", PStr []); (lit "tags", PList [])] |}.



(** The entry [add_chunk] of embed_simple.py appends for the category
    Skills with the content "Python, Go" of the section skills, under a
    model of width 384. *)
Definition simple_skills_entry : simple_entry :=
  {| se_id := lit "chunk_1";
     se_vector := repeat 1%float 384 ++ repeat 0%float (1536 - 384);
     se_metadata :=
       [(lit "text", PStr (lit "Skills: Python, Go"));
        (lit "category", PStr (lit "Skills"));
        (lit "section", PStr (lit "skills"))] |}.


(* ------------------------------------------------------------------ *)
(** ** The fixed-dimension contract *)

Section Dimension.

Lemma pad_then_slice_length (emb : list float) :
  length (firstn 1536
            (if length emb <? 1536
             then emb ++ repeat 0%float (1536 - length emb) else emb)) = 1536.
Proof.
  destruct (Nat.ltb_spec (length emb) 1536) as [Hlt | Hge];
    rewrite length_firstn, ?length_app, ?repeat_length; lia.
Qed.

Lemma pad_then_slice_narrow (emb : list float) :
  length emb < 1536 ->
  firstn 1536
    (if length emb <? 1536
     then emb ++ repeat 0%float (1536 - length emb) else emb)
  = emb ++ repeat 0%float (1536 - length emb).
Proof.
  intros Hlt. apply Nat.ltb_lt in Hlt as Hb. rewrite Hb.
  apply firstn_all2. rewrite length_app, repeat_length. lia.
Qed.

Lemma pad_then_slice_wide (emb : list float) :
  1536 <= length emb ->
  firstn 1536
    (if length emb <? 1536
     then emb ++ repeat 0%float (1536 - length emb) else emb)
  = firstn 1536 emb.
Proof.
  intros Hge. apply Nat.ltb_ge in Hge as Hb. now rewrite Hb.
Qed.

(** C10.  Whatever the text and the native width of the encoder, whenever
    the encoder returns, [create_embedding] (embed_simple.py) and the query
    embedding of test_rag.py return the same vector of exactly 1536 values:
    the native values followed by zeros when the native width is below
    1536, the first 1536 native values otherwise. *)
Theorem ingestion_embedders_fixed_dimension :
  forall (m : model) (text : pystr) (emb : list float),
    encode m text = inl emb ->
    exists v : list float,
      EmbedSimple.create_embedding m text = inl v /\
      TestRag.query_embedding m text = inl v /\
      length v = 1536 /\
      (length emb < 1536 -> v = emb ++ repeat 0%float (1536 - length emb)) /\
      (1536 <= length emb -> v = firstn 1536 emb).
Proof.
  intros m text emb Henc.
  eexists. unfold EmbedSimple.create_embedding, TestRag.query_embedding.
  rewrite Henc. cbn [ebind].
  split; [reflexivity | split; [reflexivity | split]].
  - apply pad_then_slice_length.
  - split.
    + apply pad_then_slice_narrow.
    + apply pad_then_slice_wide.
Qed.

Lemma ingestion_embedders_fixed_dimension_witness :
  exists v : list float,
    EmbedSimple.create_embedding (mock_model 2048) (lit "skills") = inl v /\
    TestRag.query_embedding (mock_model 2048) (lit "skills") = inl v /\
    length v = 1536 /\
    (length (repeat 1%float 2048) < 1536 ->
     v = repeat 1%float 2048 ++ repeat 0%float (1536 - length (repeat 1%float 2048))) /\
    (1536 <= length (repeat 1%float 2048) -> v = firstn 1536 (repeat 1%float 2048)).
Proof.
  apply (ingestion_embedders_fixed_dimension (mock_model 2048) (lit "skills")).
  reflexivity.
Defined.

(** What [embed_text] does once the model is loaded and the encoder
    returns: it pads a narrow vector and leaves any other as it is. *)
Lemma embed_text_loaded :
  forall ST (m : model) (text : pystr) (emb : list float) (g : globals),
    _embedding_model g = Some m ->
    encode m text = inl emb ->
    Manual.embed_text ST text g =
      ([EvEncode text], g,
       inl (Some (if length emb <? 1536
                  then emb ++ repeat 0%float (1536 - length emb)
                  else emb))).
Proof.
  intros ST m text emb g Hg Henc.
  unfold Manual.embed_text, Manual.get_embedding_model, bind, get_globals.
  rewrite Hg. unfold ret, try_except, bind, call. rewrite Henc. reflexivity.
Qed.

Lemma embed_text_pads_narrow :
  forall ST (m : model) (text : pystr) (emb : list float) (g : globals),
    _embedding_model g = Some m ->
    encode m text = inl emb ->
    length emb < 1536 ->
    exists v, Manual.embed_text ST text g = ([EvEncode text], g, inl (Some v))
              /\ v = emb ++ repeat 0%float (1536 - length emb)
              /\ length v = 1536.
Proof.
  intros ST m text emb g Hg Henc Hlt.
  rewrite (embed_text_loaded ST m text emb g Hg Henc).
  apply Nat.ltb_lt in Hlt as Hb. rewrite Hb.
  eexists; split; [reflexivity | split; [reflexivity |]].
  rewrite length_app, repeat_length. lia.
Qed.

Lemma embed_text_keeps_wide :
  forall ST (m : model) (text : pystr) (emb : list float) (g : globals),
    _embedding_model g = Some m ->
    encode m text = inl emb ->
    1536 <= length emb ->
    Manual.embed_text ST text g = ([EvEncode text], g, inl (Some emb)).
Proof.
  intros ST m text emb g Hg Henc Hge.
  rewrite (embed_text_loaded ST m text emb g Hg Henc).
  apply Nat.ltb_ge in Hge as Hb. now rewrite Hb.
Qed.

(** C1, at an encoder of native width 2048: [embed_text] returns all 2048
    native values, not 1536 of them (with the same encoder widths 384 and
    768 do give 1536 values). *)
Theorem embed_text_width_2048_not_truncated :
  (exists v,
      Manual.embed_text None (lit "skills") (loaded (mock_model 2048))
      = ([EvEncode (lit "skills")], loaded (mock_model 2048), inl (Some v))
      /\ length v = 2048 /\ length v <> 1536)
  /\ (exists v,
      Manual.embed_text None (lit "skills") (loaded (mock_model 384))
      = ([EvEncode (lit "skills")], loaded (mock_model 384), inl (Some v))
      /\ length v = 1536)
  /\ (exists v,
      Manual.embed_text None (lit "skills") (loaded (mock_model 768))
      = ([EvEncode (lit "skills")], loaded (mock_model 768), inl (Some v))
      /\ length v = 1536).
Proof.
  split; [| split].
  - exists (repeat 1%float 2048). split; [| split].
    + apply embed_text_keeps_wide with (m := mock_model 2048);
        [reflexivity | reflexivity |].
      rewrite repeat_length. lia.
    + apply repeat_length.
    + rewrite repeat_length. lia.
  - destruct (embed_text_pads_narrow None (mock_model 384) (lit "skills")
                (repeat 1%float 384) (loaded (mock_model 384)))
      as (v & Hrun & _ & Hlen);
      [reflexivity | reflexivity | rewrite repeat_length; lia |].
    exists v. now split.
  - destruct (embed_text_pads_narrow None (mock_model 768) (lit "skills")
                (repeat 1%float 768) (loaded (mock_model 768)))
      as (v & Hrun & _ & Hlen);
      [reflexivity | reflexivity | rewrite repeat_length; lia |].
    exists v. now split.
Qed.

End Dimension.

(* ------------------------------------------------------------------ *)
(** ** Trimming *)

Section Trimming.

Lemma lstrip_spec (s : pystr) :
  exists l, s = l ++ lstrip s
            /\ forallb is_space l = true
            /\ (forall c rest, lstrip s = c :: rest -> is_space c = false).
Proof.
  induction s as [| a s IH]; cbn [lstrip].
  - exists []. repeat split; intros; discriminate.
  - destruct (is_space a) eqn:Ha.
    + destruct IH as (l & Hs & Hl & Hhd).
      exists (a :: l). cbn [app forallb]. rewrite Ha, Hl.
      repeat split; [now f_equal | exact Hhd].
    + exists []. repeat split.
      intros c rest Heq. now inversion Heq; subst.
Qed.

Lemma rstrip_spec (s : pystr) :
  exists r, s = rstrip s ++ r
            /\ forallb is_space r = true
            /\ (forall init c, rstrip s = init ++ [c] -> is_space c = false).
Proof.
  unfold rstrip. destruct (lstrip_spec (rev s)) as (l & Hs & Hl & Hhd).
  exists (rev l). split; [| split].
  - rewrite <- rev_app_distr, <- Hs. now rewrite rev_involutive.
  - rewrite forallb_forall in *. intros x Hx. apply Hl. now apply in_rev.
  - intros init c Heq.
    apply (f_equal (@rev pychar)) in Heq.
    rewrite rev_involutive, rev_app_distr in Heq. cbn in Heq.
    eapply Hhd. exact Heq.
Qed.

Lemma strip_trims (s : pystr) : trims_to s (strip s).
Proof.
  unfold strip.
  destruct (lstrip_spec s) as (l & Hs & Hl & Hhd).
  destruct (rstrip_spec (lstrip s)) as (r & Hr & Hrs & Hlast).
  split; [| split].
  - exists l, r. split; [| now split].
    rewrite Hs at 1. now rewrite Hr at 1.
  - intros c rest Heq. rewrite Heq in Hr. cbn in Hr. eapply Hhd. exact Hr.
  - exact Hlast.
Qed.

End Trimming.

(* ------------------------------------------------------------------ *)
(** ** The generator boundary *)

Section Generator.

Variable py_str : pyval -> pystr.

Lemma getattr_hasattr (o : pyval) (name : string) (v : pyval) :
  getattr o name = inl v -> Manual.hasattr o name = true.
Proof.
  destruct o; cbn; try discriminate.
  destruct (assoc (lit name) attrs); [reflexivity | discriminate].
Qed.

Lemma completion_text_sdk (completion : pyval) (s : pystr) :
  has_sdk_content completion s ->
  Manual.completion_text py_str completion = inl (PStr s).
Proof.
  intros (choices & choice & message & Hc & H0 & Hm & Hs).
  unfold Manual.completion_text.
  rewrite (getattr_hasattr _ _ _ Hc), Hc. cbn [ebind].
  rewrite H0. cbn [ebind]. rewrite Hm. cbn [ebind]. exact Hs.
Qed.

Lemma completion_text_mapping (completion : pyval) (s : pystr) :
  has_mapping_content completion s ->
  Manual.completion_text py_str completion = inl (PStr s).
Proof.
  intros (d & choices & cd & md & -> & Hc & H0 & Hm & Hs).
  unfold Manual.completion_text, dict_get. cbn [Manual.hasattr].
  rewrite Hc, H0. cbn [ebind as_dict]. rewrite Hm. cbn [ebind as_dict].
  now rewrite Hs.
Qed.

Lemma completion_text_other (completion : pyval) :
  has_other_shape completion ->
  Manual.completion_text py_str completion = inl (PStr (py_str completion)).
Proof.
  intros [Hno Hnd]. unfold Manual.completion_text. rewrite Hno.
  destruct completion; try reflexivity. discriminate.
Qed.

Lemma generate_run (c : Groq) (prompt model : pystr) (temperature : float)
    (max_tokens : Z) (g : globals) :
  Manual.generate_response_with_groq py_str (Some c) prompt model temperature
    max_tokens g
  = ([EvChat (sent model prompt temperature max_tokens)], g,
     inl match ebind (create c (sent model prompt temperature max_tokens))
                 (fun completion =>
                    ebind (Manual.completion_text py_str completion) py_strip)
         with
         | inl s => s
         | inr e => Manual.ERROR_MARKER ++ exn_msg e
         end).
Proof.
  unfold Manual.generate_response_with_groq, try_except, bind, call, lift, ret,
    sent.
  destruct (create c _) as [completion | e]; cbn [ebind]; [| reflexivity].
  destruct (Manual.completion_text py_str completion) as [text | e];
    cbn [ebind]; [| reflexivity].
  destruct (py_strip text) as [s | e]; reflexivity.
Qed.

(** X29.  Both generators always return a string, never an exception,
    and leave the globals alone.  In the first program, when the backend
    call raises [e] the string is the cross mark U+274C and " Error
    generating response: " followed by the text of [e]; when the call
    returns a completion in the SDK shape or in the mapping shape with
    content [s], or in neither shape, the string is [s] (or the
    stringified completion) with leading and trailing whitespace removed.
    In the second program a raised [e] gives " Error generating
    response: " followed by its text, and a completion in the SDK shape
    with content [s] gives [s] stripped. *)
Theorem generate_response_never_raises_and_trims :
  forall (client : option Groq) (c : Groq) (prompt model : pystr)
         (temperature : float) (max_tokens : Z) (g : globals),
    let req := sent model prompt temperature max_tokens in
    let req' := {| req_model := model; req_system := Builtin.SYSTEM_PROMPT;
                   req_user := prompt; req_temperature := 0.7%float;
                   req_max_tokens := 500 |} in
    let run cl :=
      Manual.generate_response_with_groq py_str cl prompt model temperature
        max_tokens g in
    let run' cl := Builtin.generate_response_with_groq cl prompt model g in
    (exists t answer, run client = (t, g, inl answer))
    /\ (forall e, create c req = inr e ->
          run (Some c)
          = ([EvChat req], g,
             inl ((10060%N :: lit " Error generating response: ")
                  ++ exn_msg e)))
    /\ (forall completion s,
          create c req = inl completion ->
          has_sdk_content completion s \/ has_mapping_content completion s ->
          run (Some c) = ([EvChat req], g, inl (strip s))
          /\ trims_to s (strip s))
    /\ (forall completion,
          create c req = inl completion ->
          has_other_shape completion ->
          run (Some c) = ([EvChat req], g, inl (strip (py_str completion)))
          /\ trims_to (py_str completion) (strip (py_str completion)))
    /\ (exists t answer, run' client = (t, g, inl answer))
    /\ (forall e, create c req' = inr e ->
          run' (Some c)
          = ([EvChat req'], g,
             inl (lit " Error generating response: " ++ exn_msg e)))
    /\ (forall completion s,
          create c req' = inl completion ->
          has_sdk_content completion s ->
          run' (Some c) = ([EvChat req'], g, inl (strip s))
          /\ trims_to s (strip s)).
Proof.
  intros client c prompt model temperature max_tokens g req req' run run'.
  subst run run'; cbn beta.
  split; [| split; [| split; [| split; [| split; [| split]]]]].
  - destruct client as [cl |].
    + rewrite generate_run. do 2 eexists; reflexivity.
    + do 2 eexists; reflexivity.
  - intros e He. rewrite generate_run. fold req. now rewrite He.
  - intros completion s Hc Hshape. rewrite generate_run. fold req.
    rewrite Hc. cbn [ebind].
    assert (Ht : Manual.completion_text py_str completion = inl (PStr s)).
    { destruct Hshape as [H | H];
        [now apply completion_text_sdk | now apply completion_text_mapping]. }
    rewrite Ht. cbn [ebind py_strip]. split; [reflexivity | apply strip_trims].
  - intros completion Hc Hshape. rewrite generate_run. fold req.
    rewrite Hc. cbn [ebind]. rewrite (completion_text_other _ Hshape).
    cbn [ebind py_strip]. split; [reflexivity | apply strip_trims].
  - unfold Builtin.generate_response_with_groq, try_except, bind, call, lift, ret.
    destruct client as [cl |]; [| do 2 eexists; reflexivity].
    destruct (create cl _) as [completion | e]; [| do 2 eexists; reflexivity].
    destruct (ebind (getattr completion "choices") _) as [s | e];
      do 2 eexists; reflexivity.
  - intros e He.
    unfold Builtin.generate_response_with_groq, try_except, bind, call, lift, ret.
    fold req'. now rewrite He.
  - intros completion s Hc (choices & choice & message & Hch & H0 & Hm & Hs).
    unfold Builtin.generate_response_with_groq, try_except, bind, call, lift, ret.
    fold req'. rewrite Hc, Hch. cbn [ebind]. rewrite H0. cbn [ebind].
    rewrite Hm. cbn [ebind]. rewrite Hs. cbn [ebind py_strip].
    split; [reflexivity | apply strip_trims].
Qed.

(** C7, at a completion that is a plain mapping with the nested keys and
    the content "  I know Python.  ", and at a completion that is that
    bare string.  The first program's generator returns "I know Python."
    for the SDK object, the mapping and the bare string alike.  The
    second program's generator does so for the SDK object only: for the
    mapping and for the bare string it returns its error string, since
    line 427 reads [completion.choices] and nothing else. *)
Theorem builtin_generator_rejects_mapping_completion :
  let padded := PStr (lit "  I know Python.  ") in
  let sdk := {| create := fun _ => inl (completion_obj padded) |} in
  let mapping := {| create := fun _ => inl (completion_dict padded) |} in
  let bare := {| create := fun _ => inl padded |} in
  let req := sent LLAMA QUESTION 0.2%float 400 in
  let req' := {| req_model := LLAMA; req_system := Builtin.SYSTEM_PROMPT;
                 req_user := QUESTION; req_temperature := 0.7%float;
                 req_max_tokens := 500 |} in
  let run cl :=
    Manual.generate_response_with_groq str_stub (Some cl) QUESTION LLAMA
      0.2%float 400 fresh in
  let run' cl :=
    Builtin.generate_response_with_groq (Some cl) QUESTION LLAMA fresh in
  run sdk = ([EvChat req], fresh, inl (lit "I know Python."))
  /\ run mapping = ([EvChat req], fresh, inl (lit "I know Python."))
  /\ run bare = ([EvChat req], fresh, inl (lit "I know Python."))
  /\ run' sdk = ([EvChat req'], fresh, inl (lit "I know Python."))
  /\ run' mapping
     = ([EvChat req'], fresh,
        inl (lit " Error generating response: 'dict' object has no attribute 'choices'"))
  /\ run' bare
     = ([EvChat req'], fresh,
        inl (lit " Error generating response: 'str' object has no attribute 'choices'"))
  /\ snd (run' mapping) <> inl (lit "I know Python.").
Proof.
  cbv zeta. repeat match goal with |- _ /\ _ => split end;
    try (vm_compute; reflexivity);
    vm_compute; intros H; discriminate H.
Qed.

End Generator.

(* ------------------------------------------------------------------ *)
(** ** The retrieval boundary *)

Section Retrieval.

Variable SentenceTransformer : option (pystr -> exc model).

Lemma no_generation_app (t t' : list event) :
  no_generation t -> no_generation t' -> no_generation (t ++ t').
Proof.
  unfold no_generation. intros H H'. now rewrite forallb_app, H, H'.
Qed.

Lemma emap_raises {A B} (f : A -> exc B) (l : list A) (x : A) (e : exn) :
  In x l -> f x = inr e -> exists e', emap f l = inr e'.
Proof.
  induction l as [| y l IH]; intros Hin Hf; [contradiction |].
  cbn [emap]. destruct Hin as [-> | Hin].
  - rewrite Hf. cbn. eauto.
  - destruct (f y); cbn [ebind]; [| eauto].
    destruct (IH Hin Hf) as [e' ->]. cbn. eauto.
Qed.

Lemma get_embedding_model_total (g : globals) :
  exists t g' r,
    Manual.get_embedding_model SentenceTransformer g = (t, g', inl r)
    /\ no_generation t.
Proof.
  unfold Manual.get_embedding_model, bind, get_globals.
  destruct (_embedding_model g) as [m |].
  - do 3 eexists. split; reflexivity.
  - destruct SentenceTransformer as [ctor |].
    + unfold try_except, bind, call, put_globals, ret.
      destruct (ctor Manual.MODEL_NAME) as [m | e];
        do 3 eexists; split; reflexivity.
    + do 3 eexists. split; reflexivity.
Qed.

(** [embed_text] never raises and never calls the generator. *)
Lemma embed_text_total (text : pystr) (g : globals) :
  exists t g' r,
    Manual.embed_text SentenceTransformer text g = (t, g', inl r)
    /\ no_generation t.
Proof.
  unfold Manual.embed_text, bind.
  destruct (get_embedding_model_total g) as (t & g' & r & -> & Hn).
  destruct r as [m |].
  - unfold try_except, bind, call, ret.
    destruct (encode m text) as [emb | e]; do 3 eexists;
      (split; [reflexivity | apply no_generation_app; [exact Hn | reflexivity]]).
  - do 3 eexists. split; [reflexivity |].
    apply no_generation_app; [exact Hn | reflexivity].
Qed.

(** What [query_vectors] does once the question is embedded. *)
Lemma query_vectors_embedded (idx : Index) (q : pystr) (k : Z) (g g' : globals)
    (t : list event) (v : list float) :
  Manual.embed_text SentenceTransformer q g = (t, g', inl (Some v)) ->
  Manual.query_vectors SentenceTransformer (Some idx) q k g
  = (t ++ [EvQuery v k], g',
     inl match ebind (query idx v k) Manual.normalize with
         | inl hits => hits
         | inr _ => []
         end).
Proof.
  intros He. unfold Manual.query_vectors, bind. rewrite He.
  unfold try_except, bind, call, lift, ret.
  destruct (query idx v k) as [res | e]; cbn [ebind]; [| reflexivity].
  destruct (Manual.normalize res); reflexivity.
Qed.

Lemma query_vectors_total (index : option Index) (q : pystr) (k : Z)
    (g : globals) :
  exists t g' hits,
    Manual.query_vectors SentenceTransformer index q k g = (t, g', inl hits)
    /\ no_generation t.
Proof.
  destruct index as [idx |]; [| do 3 eexists; split; reflexivity].
  destruct (embed_text_total q g) as (t & g' & r & He & Hn).
  destruct r as [v |].
  - rewrite (query_vectors_embedded idx q k g g' t v He).
    do 3 eexists. split; [reflexivity |].
    apply no_generation_app; [exact Hn | reflexivity].
  - unfold Manual.query_vectors, bind. rewrite He.
    do 3 eexists. split; [reflexivity |].
    apply no_generation_app; [exact Hn | reflexivity].
Qed.

(** The loop body raises exactly on the items whose metadata is truthy
    and not a mapping. *)
Lemma normalize_hit_unreadable (h : pyval) :
  unreadable h = true -> exists e, Manual.normalize_hit h = inr e.
Proof.
  unfold unreadable, metadata_field, Manual.normalize_hit.
  destruct h as [| b | z | f | s | l | d | attrs]; try discriminate.
  - cbn [getattr_or_none Manual.get_if_dict]. unfold dict_get.
    destruct (assoc (lit "metadata") d) as [m |]; [| discriminate].
    intros H. apply andb_prop in H as [Ht Hd].
    change (PNone |or| m) with m. unfold por at 1. rewrite Ht.
    destruct m; try discriminate; cbn [as_dict ebind]; eauto.
  - cbn [getattr_or_none Manual.get_if_dict].
    destruct (assoc (lit "metadata") attrs) as [m |]; [| discriminate].
    intros H. apply andb_prop in H as [Ht Hd].
    assert (Hm : m |or| PNone |or| PDict [] = m)
      by (unfold por; now rewrite Ht, Ht).
    rewrite Hm.
    destruct m; try discriminate; cbn [as_dict ebind]; eauto.
Qed.

Lemma normalize_hit_readable (h : pyval) :
  unreadable h = false -> exists hit, Manual.normalize_hit h = inl hit.
Proof.
  unfold unreadable, metadata_field, Manual.normalize_hit.
  destruct h as [| b | z | f | s | l | d | attrs];
    try (intros _; eexists; reflexivity).
  - cbn [getattr_or_none Manual.get_if_dict]. unfold dict_get.
    destruct (assoc (lit "metadata") d) as [m |];
      [| intros _; eexists; reflexivity].
    change (PNone |or| m) with m. intros H.
    destruct (truthy m) eqn:Ht.
    + destruct m; try discriminate H. unfold por. rewrite Ht.
      eexists. reflexivity.
    + unfold por at 1. rewrite Ht. eexists. reflexivity.
  - cbn [getattr_or_none Manual.get_if_dict].
    destruct (assoc (lit "metadata") attrs) as [m |];
      [| intros _; eexists; reflexivity].
    intros H. destruct (truthy m) eqn:Ht.
    + destruct m; try discriminate H.
      assert (Hm : PDict d |or| PNone |or| PDict [] = PDict d)
        by (unfold por; now rewrite Ht, Ht).
      rewrite Hm. eexists. reflexivity.
    + assert (Hm : m |or| PNone |or| PDict [] = PDict [])
        by (unfold por; now rewrite Ht).
      rewrite Hm. eexists. reflexivity.
Qed.

(** An item that is neither an object nor a mapping becomes a hit with no
    score, empty metadata and empty text. *)
Lemma normalize_hit_not_a_hit (h : pyval) :
  not_a_hit h = true -> Manual.normalize_hit h = inl (normalized PNone []).
Proof.
  destruct h; try discriminate; reflexivity.
Qed.

Lemma emap_readable (items : list pyval) :
  existsb unreadable items = false ->
  exists hits,
    emap Manual.normalize_hit items = inl hits
    /\ length hits = length items
    /\ (forall i h, nth_error items i = Some h -> not_a_hit h = true ->
          nth_error hits i = Some (normalized PNone [])).
Proof.
  induction items as [| h items IH]; intros H.
  - exists []. repeat split. intros [| i] h Hi; discriminate Hi.
  - cbn [existsb] in H. apply orb_false_elim in H as [Hh Hrest].
    destruct (normalize_hit_readable h Hh) as [hit Hhit].
    destruct (IH Hrest) as (hits & Hhits & Hlen & Hjunk).
    exists (hit :: hits). cbn [emap]. rewrite Hhit, Hhits.
    split; [reflexivity |]. split; [cbn; now rewrite Hlen |].
    intros [| i] h0 Hi Hn; cbn [nth_error] in *.
    + inversion Hi; subst h0.
      rewrite (normalize_hit_not_a_hit h Hn) in Hhit. now inversion Hhit.
    + now apply (Hjunk i h0).
Qed.

Lemma emap_unreadable (items : list pyval) :
  existsb unreadable items = true ->
  exists e, emap Manual.normalize_hit items = inr e.
Proof.
  intros H. apply existsb_exists in H as (h & Hin & Hh).
  destruct (normalize_hit_unreadable h Hh) as [e He].
  exact (emap_raises Manual.normalize_hit items h e Hin He).
Qed.

(** C8, as the code has it.  [query_vectors] always returns a list and
    never an exception, whatever the index, the question, [top_k] and the
    globals.  Once the question is embedded it returns the empty list
    when the index call raises, when the response is neither a mapping
    nor a list, when what the response offers as hits cannot be iterated,
    and when one of the items carries a truthy metadata that is not a
    mapping.  Any other response is taken as it comes: it gives one hit
    per item, and an item that is neither an object nor a mapping gives a
    hit with no score, empty metadata and empty text. *)
Theorem query_vectors_never_raises :
  forall (index : option Index) (idx : Index) (q : pystr) (k : Z)
         (g g' : globals) (t : list event) (v : list float),
    (exists t0 g0 hits,
        Manual.query_vectors SentenceTransformer index q k g
        = (t0, g0, inl hits))
    /\ (Manual.embed_text SentenceTransformer q g = (t, g', inl (Some v)) ->
        (forall e, query idx v k = inr e ->
           Manual.query_vectors SentenceTransformer (Some idx) q k g
           = (t ++ [EvQuery v k], g', inl []))
        /\ (forall res, query idx v k = inl res ->
              (is_dict res = false -> is_list res = false ->
               Manual.query_vectors SentenceTransformer (Some idx) q k g
               = (t ++ [EvQuery v k], g', inl []))
              /\ (iterable (Manual.select_hits res) = false ->
                  Manual.query_vectors SentenceTransformer (Some idx) q k g
                  = (t ++ [EvQuery v k], g', inl []))
              /\ (forall items,
                    iterate (Manual.select_hits res) = inl items ->
                    (existsb unreadable items = true ->
                     Manual.query_vectors SentenceTransformer (Some idx) q k g
                     = (t ++ [EvQuery v k], g', inl []))
                    /\ (existsb unreadable items = false ->
                        exists hits,
                          Manual.query_vectors SentenceTransformer (Some idx)
                            q k g
                          = (t ++ [EvQuery v k], g', inl hits)
                          /\ length hits = length items
                          /\ (forall i h,
                                nth_error items i = Some h ->
                                not_a_hit h = true ->
                                nth_error hits i
                                = Some (normalized PNone [])))))).
Proof.
  intros index idx q k g g' t v. split.
  - destruct (query_vectors_total index q k g) as (t0 & g0 & hits & H & _).
    eauto.
  - intros He. split.
    + intros e Hq. rewrite (query_vectors_embedded idx q k g g' t v He).
      now rewrite Hq.
    + intros res Hq.
      rewrite (query_vectors_embedded idx q k g g' t v He), Hq.
      cbn [ebind]. unfold Manual.normalize. split; [| split].
      * intros Hd Hl. destruct res; try discriminate; reflexivity.
      * intros Hi. destruct (Manual.select_hits res); try discriminate;
          reflexivity.
      * intros items Hit. rewrite Hit. cbn [ebind]. split.
        -- intros Hu. destruct (emap_unreadable items Hu) as [e ->].
           reflexivity.
        -- intros Hr.
           destruct (emap_readable items Hr) as (hits & -> & Hlen & Hjunk).
           exists hits. split; [reflexivity | split; assumption].
Qed.

End Retrieval.

(* ------------------------------------------------------------------ *)
(** ** Deciding [substring] *)

Lemma prefixb_sound (p s : pystr) :
  prefixb p s = true -> exists post, s = p ++ post.
Proof.
  revert s. induction p as [| x p IH]; intros s H.
  - now exists s.
  - destruct s as [| y s]; [discriminate |]. cbn in H.
    apply andb_prop in H as [Hxy Hp]. apply N.eqb_eq in Hxy. subst y.
    destruct (IH s Hp) as [post ->]. now exists post.
Qed.

Lemma containsb_sound (needle hay : pystr) :
  containsb needle hay = true -> substring needle hay.
Proof.
  induction hay as [| c hay IH]; cbn [containsb]; intros H.
  - apply orb_prop in H as [H | H]; [| discriminate].
    destruct (prefixb_sound _ _ H) as [post ->]. now exists [], post.
  - apply orb_prop in H as [H | H].
    + destruct (prefixb_sound _ _ H) as [post ->]. now exists [], post.
    + destruct (IH H) as (pre & post & ->). now exists (c :: pre), post.
Qed.

(* ------------------------------------------------------------------ *)
(** ** The pipeline *)

Section Pipeline.

Variable SentenceTransformer : option (pystr -> exc model).
Variable DEFAULT_MODEL : pystr.
Variable py_str : pyval -> pystr.

Local Abbreviation rag_query :=
  (Manual.rag_query SentenceTransformer DEFAULT_MODEL py_str).
Local Abbreviation query_vectors := (Manual.query_vectors SentenceTransformer).

(** A non-empty question always goes to retrieval first. *)
Lemma rag_query_retrieves (index : option Index) (client : option Groq)
    (q : pystr) (k : Z) (g g' : globals) (t : list event)
    (hits : list pyval) :
  q <> [] ->
  query_vectors index q k g = (t, g', inl hits) ->
  rag_query index client q k g =
    match hits with
    | [] => (t, g', inl Manual.NOT_FOUND)
    | _ =>
        match Manual.context_block py_str hits with
        | inl cb =>
            let '(t', g'', r) :=
              Manual.generate_response_with_groq py_str client
                (Manual.prompt cb q) DEFAULT_MODEL 0.2%float 400 g' in
            (t ++ t', g'', r)
        | inr e => (t, g', inr e)
        end
    end.
Proof.
  intros Hq Hr. destruct q as [| c q]; [congruence |].
  unfold Manual.rag_query, bind. rewrite Hr.
  destruct hits as [| h hits].
  - unfold ret. now rewrite app_nil_r.
  - unfold lift.
    destruct (Manual.context_block py_str (h :: hits)) as [cb | e];
      rewrite ?app_nil_r; [| reflexivity].
    destruct (Manual.generate_response_with_groq _ _ _ _ _ _ _) as [[t' g''] r].
    reflexivity.
Qed.




(** The instruction to admit insufficient information closes the prompt. *)
Lemma instruction_in_tail : substring Manual.INSTRUCTION Manual.PROMPT_TAIL.
Proof.
  exists (NL ++ NL), (lit " Keep the answer concise and professional.").
  vm_compute. reflexivity.
Qed.

(** For a non-empty question with at least one hit whose context block is
    [cb], [rag_query] sends exactly one chat request after the retrieval;
    its user message is the prompt built from [cb] and the question. *)
Lemma rag_query_sends_prompt (index : option Index) (c : Groq) (q : pystr)
    (k : Z) (g g' : globals) (t : list event) (hits : list pyval)
    (cb : pystr) :
  q <> [] ->
  query_vectors index q k g = (t, g', inl hits) ->
  hits <> [] ->
  Manual.context_block py_str hits = inl cb ->
  exists answer,
    rag_query index (Some c) q k g
    = (t ++ [EvChat (sent DEFAULT_MODEL (Manual.prompt cb q) 0.2%float 400)],
       g', inl answer).
Proof.
  intros Hq Hr Hh Hcb.
  rewrite (rag_query_retrieves index (Some c) q k g g' t hits Hq Hr).
  destruct hits as [| h hits]; [congruence |].
  rewrite Hcb, generate_run. eexists. reflexivity.
Qed.

End Pipeline.

(* ------------------------------------------------------------------ *)
(** ** Normalising the response shapes *)

Section Normalisation.

Lemma normalize_hit_mapping (score : pyval) (md : list (pystr * pyval)) :
  Manual.normalize_hit (mapping_hit score md) = inl (normalized score md).
Proof.
  unfold Manual.normalize_hit, mapping_hit, normalized, display_text.
  cbn [getattr_or_none Manual.get_if_dict].
  change (dict_get _ "score" PNone) with score.
  change (dict_get [(lit "score", score); (lit "metadata", PDict md)]
            "metadata" PNone) with (PDict md).
  change (PNone |or| score) with score.
  change (PNone |or| PDict md) with (PDict md).
  destruct md; reflexivity.
Qed.

Lemma normalize_hit_object (score : pyval) (md : list (pystr * pyval)) :
  Manual.normalize_hit (object_hit score md)
  = inl (normalized (if truthy score then score else PNone) md).
Proof.
  unfold Manual.normalize_hit, object_hit, normalized, display_text.
  cbn [Manual.get_if_dict].
  change (getattr_or_none _ "score") with score.
  change (getattr_or_none
            (PObj [(lit "score", score); (lit "metadata", PDict md)])
            "metadata") with (PDict md).
  unfold por at 1. destruct md; reflexivity.
Qed.

Lemma emap_mapping_hits (hs : list hit_data) :
  emap Manual.normalize_hit (map (fun h => mapping_hit (fst h) (snd h)) hs)
  = inl (map (fun h => normalized (fst h) (snd h)) hs).
Proof.
  induction hs as [| [s md] hs IH]; [reflexivity |].
  cbn [map emap fst snd]. rewrite normalize_hit_mapping, IH. reflexivity.
Qed.

Lemma emap_object_hits (hs : list hit_data) :
  emap Manual.normalize_hit (map (fun h => object_hit (fst h) (snd h)) hs)
  = inl (map (fun h =>
                normalized (if truthy (fst h) then fst h else PNone) (snd h))
             hs).
Proof.
  induction hs as [| [s md] hs IH]; [reflexivity |].
  cbn [map emap fst snd]. rewrite normalize_hit_object, IH. reflexivity.
Qed.

(** The three mapping-style shapes always normalise to the same hits, in
    the order of the response, with the text probed in priority order. *)
Lemma mapping_shapes_agree (hs : list hit_data) :
  Manual.normalize (results_response hs)
  = inl (map (fun h => normalized (fst h) (snd h)) hs)
  /\ Manual.normalize (matches_response hs)
     = inl (map (fun h => normalized (fst h) (snd h)) hs)
  /\ Manual.normalize (bare_response hs)
     = inl (map (fun h => normalized (fst h) (snd h)) hs).
Proof.
  unfold Manual.normalize, results_response, matches_response, bare_response.
  repeat split.
  - destruct hs as [| h hs]; [reflexivity |].
    change (Manual.select_hits _)
      with (PList (map (fun h => mapping_hit (fst h) (snd h)) (h :: hs))).
    cbn [iterate ebind]. apply emap_mapping_hits.
  - destruct hs as [| h hs]; [reflexivity |].
    change (Manual.select_hits _)
      with (PList (map (fun h => mapping_hit (fst h) (snd h)) (h :: hs))).
    cbn [iterate ebind]. apply emap_mapping_hits.
  - cbn [Manual.select_hits iterate ebind]. apply emap_mapping_hits.
Qed.

(** The attribute style agrees with them as long as no score is falsy
    without being [None]. *)
Lemma object_shape_agrees (hs : list hit_data) :
  Forall (fun h => truthy (fst h) = true \/ fst h = PNone) hs ->
  Manual.normalize (object_response hs)
  = inl (map (fun h => normalized (fst h) (snd h)) hs).
Proof.
  intros Hs. unfold Manual.normalize, object_response.
  cbn [Manual.select_hits iterate ebind]. rewrite emap_object_hits.
  f_equal. apply map_ext_in. intros h Hin.
  rewrite Forall_forall in Hs. destruct (Hs h Hin) as [Ht | Hn].
  - now rewrite Ht.
  - rewrite Hn. reflexivity.
Qed.

(** C4, at one hit with score 0.0 and metadata [{content: "x"}]: the
    three mapping-style shapes normalise to a hit with score 0.0, the
    attribute-style shape to a hit with score [None]; the four results
    are not the same sequence. *)
Theorem attribute_style_zero_score_lost :
  let hs := [(PFloat 0%float, [(lit "content", PStr (lit "x"))])] in
  let md := [(lit "content", PStr (lit "x"))] in
  Manual.normalize (results_response hs) = inl [normalized (PFloat 0%float) md]
  /\ Manual.normalize (matches_response hs) = inl [normalized (PFloat 0%float) md]
  /\ Manual.normalize (bare_response hs) = inl [normalized (PFloat 0%float) md]
  /\ Manual.normalize (object_response hs) = inl [normalized PNone md]
  /\ Manual.normalize (object_response hs) <> Manual.normalize (bare_response hs).
Proof.
  cbv zeta.
  destruct (mapping_shapes_agree
              [(PFloat 0%float, [(lit "content", PStr (lit "x"))])])
    as (Hr & Hm & Hb).
  split; [exact Hr | split; [exact Hm | split; [exact Hb | split]]].
  - unfold Manual.normalize, object_response.
    cbn [Manual.select_hits iterate ebind]. now rewrite emap_object_hits.
  - rewrite Hb. unfold Manual.normalize, object_response.
    cbn [Manual.select_hits iterate ebind]. rewrite emap_object_hits.
    cbn [map fst snd]. intros H. inversion H.
Qed.

End Normalisation.

(* ------------------------------------------------------------------ *)
(** ** Context assembly *)

Section Assembly.

Variable py_str : pyval -> pystr.

Lemma emap_length {A B} (f : A -> exc B) (l : list A) (l' : list B) :
  emap f l = inl l' -> length l' = length l.
Proof.
  revert l'. induction l as [| x l IH]; intros l' H; cbn [emap] in H.
  - now inversion H.
  - destruct (f x) as [y | e]; cbn [ebind] in H; [| discriminate].
    destruct (emap f l) as [ys | e]; cbn [ebind] in H; [| discriminate].
    inversion H; subst. cbn. now rewrite (IH ys eq_refl).
Qed.

(** The context loop of the first program adds one entry per hit: it
    drops none, whatever their text. *)
Lemma contexts_one_per_hit (hits cs : list pyval) :
  Manual.contexts py_str hits = inl cs -> length cs = length hits.
Proof. apply emap_length. Qed.

(** C2, on a response of the index with three results whose metadata
    are [{section:"A"}], [{title:"B", content:"x"}] and [{content:"y"}].
    [query_vectors] resolves their texts to "", "x" and "y"; the context
    loop of the first program finds the titles "A", "B" and "" and keeps
    the hit with the empty text, so the block has the three lines "A: ",
    "B: x" and "y", not the two lines "B: x" and "y", and that block is
    what [rag_query] sends in its prompt. *)
Theorem context_block_keeps_empty_text_hit :
  let index :=
    Some (mock_index
            (PList [index_result (PFloat 0.5%float)
                      [(lit "section", PStr (lit "A"))];
                    index_result (PFloat 0.5%float)
                      [(lit "title", PStr (lit "B"));
                       (lit "content", PStr (lit "x"))];
                    index_result (PFloat 0.5%float)
                      [(lit "content", PStr (lit "y"))]])) in
  let g := loaded (mock_model 384) in
  let hits :=
    [normalized (PFloat 0.5%float) [(lit "section", PStr (lit "A"))];
     normalized (PFloat 0.5%float)
       [(lit "title", PStr (lit "B")); (lit "content", PStr (lit "x"))];
     normalized (PFloat 0.5%float) [(lit "content", PStr (lit "y"))]] in
  let block := join (NL ++ NL) [lit "A: "; lit "B: x"; lit "y"] in
  snd (Manual.query_vectors None index QUESTION 3 g) = inl hits
  /\ map (fun h => Manual.get_if_dict h "text") hits
     = [PStr []; PStr (lit "x"); PStr (lit "y")]
  /\ Manual.contexts py_str hits
     = inl [PStr (lit "A: "); PStr (lit "B: x"); PStr (lit "y")]
  /\ Manual.context_block py_str hits = inl block
  /\ Manual.context_block py_str hits
     <> inl (join (NL ++ NL) [lit "B: x"; lit "y"])
  /\ exists t answer,
       Manual.rag_query None LLAMA py_str index (Some echo_client) QUESTION 3 g
       = (t ++ [EvChat (sent LLAMA (Manual.prompt block QUESTION)
                          0.2%float 400)],
          g, inl answer).
Proof.
  cbv zeta. split; [| split; [| split; [| split; [| split]]]].
  - vm_compute. reflexivity.
  - vm_compute. reflexivity.
  - vm_compute. reflexivity.
  - vm_compute. reflexivity.
  - vm_compute. intros H. discriminate H.
  - exists [EvEncode QUESTION;
            EvQuery (repeat 1%float 384 ++ repeat 0%float (1536 - 384)) 3%Z],
      (strip (Manual.prompt (join (NL ++ NL) [lit "A: "; lit "B: x"; lit "y"])
                QUESTION)).
    vm_compute. reflexivity.
Qed.

(** The loop of the second program, on the same three hits as results of
    the index, does drop the one whose content is empty (line 452); it
    labels every line it keeps with the title, also an empty one. *)
Lemma top_docs_drops_empty_content :
  Builtin.top_docs py_str
    (PList [index_result (PFloat 0.5%float)
              [(lit "title", PStr (lit "A")); (lit "content", PStr [])];
            index_result (PFloat 0.5%float)
              [(lit "title", PStr (lit "B")); (lit "content", PStr (lit "x"))];
            index_result (PFloat 0.5%float)
              [(lit "title", PStr []); (lit "content", PStr (lit "y"))]])
  = inl [lit "B: x"; lit ": y"].
Proof. vm_compute. reflexivity. Qed.

End Assembly.

(** C3, at a question whose only hit has no content, text or title: the
    first program still sends a chat request, with an empty context, and
    answers with the generated text instead of a canned answer.  The
    second program, on the same result, returns its canned answer without
    a chat request (lines 455-456). *)
Theorem empty_hits_still_reach_generator :
  let index := Some (mock_index (PList [index_result (PFloat 0.5%float) []])) in
  let g := loaded (mock_model 384) in
  let run :=
    Manual.rag_query None LLAMA str_stub index (Some echo_client) QUESTION 3 g in
  Manual.query_vectors None index QUESTION 3 g
  = (fst (fst (Manual.query_vectors None index QUESTION 3 g)), g,
     inl [normalized (PFloat 0.5%float) []])
  /\ display_text [] = PStr []
  /\ run = (fst (fst (Manual.query_vectors None index QUESTION 3 g))
            ++ [EvChat (sent LLAMA (Manual.prompt [] QUESTION) 0.2%float 400)],
            g, inl (Manual.prompt [] QUESTION))
  /\ ~ no_generation (fst (fst run))
  /\ snd run <> inl Manual.NOT_FOUND
  /\ Builtin.rag_query str_stub index (Some echo_client) QUESTION g
     = ([EvQueryData QUESTION 3], g, inl Builtin.NO_DETAILS).
Proof.
  cbv zeta. split; [| split; [| split; [| split; [| split]]]].
  - vm_compute. reflexivity.
  - reflexivity.
  - vm_compute. reflexivity.
  - unfold no_generation. vm_compute. discriminate.
  - vm_compute. intros H. discriminate H.
  - vm_compute. reflexivity.
Qed.


(* ------------------------------------------------------------------ *)
(** ** The prompt *)

(** C9.  For a non-empty question with at least one hit and context block
    [cb], [rag_query] sends one chat request after the retrieval; its
    user message holds [cb] verbatim, then the literal question, then the
    instruction "If the context does not contain enough detail, say you
    don't have enough information.".  With the chunk
    [{id:"c1", title:"Skills", content:"Python, Go"}] retrieved for
    "What are your skills?" and a generator that echoes its prompt, the
    prompt and the answer contain "Skills: Python, Go" and the question. *)
Theorem prompt_embeds_context_and_question :
  (forall (SentenceTransformer : option (pystr -> exc model))
          (DEFAULT_MODEL : pystr) (py_str : pyval -> pystr)
          (index : option Index) (c : Groq) (q : pystr) (k : Z)
          (g g' : globals) (t : list event) (hits : list pyval) (cb : pystr),
      q <> [] ->
      Manual.query_vectors SentenceTransformer index q k g = (t, g', inl hits) ->
      hits <> [] ->
      Manual.context_block py_str hits = inl cb ->
      exists req answer pre mid post,
        Manual.rag_query SentenceTransformer DEFAULT_MODEL py_str index
          (Some c) q k g
        = (t ++ [EvChat req], g', inl answer)
        /\ req_user req = pre ++ cb ++ mid ++ q ++ post
        /\ substring
             (lit "If the context does not contain enough detail, say you don't have enough information.")
             post)
  /\ (let g := loaded (mock_model 384) in
      exists t req,
        Manual.rag_query None LLAMA str_stub (Some skills_index)
          (Some echo_client) QUESTION 3 g
        = (t ++ [EvChat req], g, inl (req_user req))
        /\ substring (lit "Skills: Python, Go") (req_user req)
        /\ substring QUESTION (req_user req)).
Proof.
  split.
  - intros ST DEFAULT_MODEL py_str index c q k g g' t hits cb Hq Hr Hh Hcb.
    destruct (rag_query_sends_prompt ST DEFAULT_MODEL py_str index c q k g g'
                t hits cb Hq Hr Hh Hcb) as [answer Hrun].
    exists (sent DEFAULT_MODEL (Manual.prompt cb q) 0.2%float 400), answer,
      Manual.PROMPT_HEAD, Manual.QUESTION_LABEL, Manual.PROMPT_TAIL.
    split; [exact Hrun | split; [reflexivity | exact instruction_in_tail]].
  - cbv zeta.
    exists (fst (fst (Manual.query_vectors None (Some skills_index) QUESTION 3
                        (loaded (mock_model 384))))),
      (sent LLAMA (Manual.prompt (lit "Skills: Python, Go") QUESTION)
         0.2%float 400).
    split; [vm_compute; reflexivity |].
    split; apply containsb_sound; vm_compute; reflexivity.
Qed.

Lemma prompt_embeds_context_and_question_witness :
  exists req answer pre mid post,
    Manual.rag_query None LLAMA str_stub (Some skills_index)
      (Some echo_client) QUESTION 3 (loaded (mock_model 384))
    = ([EvEncode QUESTION;
        EvQuery (repeat 1%float 384 ++ repeat 0%float (1536 - 384)) 3]
         ++ [EvChat req],
       loaded (mock_model 384), inl answer)
    /\ req_user req = pre ++ lit "Skills: Python, Go" ++ mid ++ QUESTION ++ post
    /\ substring
         (lit "If the context does not contain enough detail, say you don't have enough information.")
         post.
Proof.
  apply (proj1 prompt_embeds_context_and_question None LLAMA str_stub
           (Some skills_index) echo_client QUESTION 3%Z
           (loaded (mock_model 384)) (loaded (mock_model 384))
           [EvEncode QUESTION;
            EvQuery (repeat 1%float 384 ++ repeat 0%float (1536 - 384)) 3%Z]
           [normalized (PFloat 0.5%float)
              [(lit "title", PStr (lit "Skills"));
               (lit "content", PStr (lit "Python, Go"))]]).
  - discriminate.
  - vm_compute. reflexivity.
  - discriminate.
  - vm_compute. reflexivity.
Defined.

(* ------------------------------------------------------------------ *)
(** ** The theorems at concrete inputs *)


Lemma completion_obj_has_content (s : pystr) :
  has_sdk_content (completion_obj (PStr s)) s.
Proof.
  exists (PList [PObj [(lit "message", PObj [(lit "content", PStr s)])]]),
    (PObj [(lit "message", PObj [(lit "content", PStr s)])]),
    (PObj [(lit "content", PStr s)]).
  repeat split.
Qed.

Lemma completion_dict_has_content (s : pystr) :
  has_mapping_content (completion_dict (PStr s)) s.
Proof.
  exists [(lit "choices",
           PList [PDict [(lit "message", PDict [(lit "content", PStr s)])]])],
    (PList [PDict [(lit "message", PDict [(lit "content", PStr s)])]]),
    [(lit "message", PDict [(lit "content", PStr s)])],
    [(lit "content", PStr s)].
  repeat split.
Qed.

Lemma generate_response_never_raises_and_trims_witness :
  let e := Exn BackendError (lit "rate limit") in
  let padded := lit "  I know Python.  " in
  let req' := {| req_model := LLAMA; req_system := Builtin.SYSTEM_PROMPT;
                 req_user := QUESTION; req_temperature := 0.7%float;
                 req_max_tokens := 500 |} in
  Manual.generate_response_with_groq str_stub (Some (failing_client e))
    QUESTION LLAMA 0.2%float 400 fresh
  = ([EvChat (sent LLAMA QUESTION 0.2%float 400)], fresh,
     inl ((10060%N :: lit " Error generating response: ") ++ lit "rate limit"))
  /\ (Manual.generate_response_with_groq str_stub
        (Some {| create := fun _ => inl (completion_dict (PStr padded)) |})
        QUESTION LLAMA 0.2%float 400 fresh
      = ([EvChat (sent LLAMA QUESTION 0.2%float 400)], fresh,
         inl (strip padded))
      /\ trims_to padded (strip padded))
  /\ (Manual.generate_response_with_groq str_stub
        (Some {| create := fun _ => inl (PStr padded) |})
        QUESTION LLAMA 0.2%float 400 fresh
      = ([EvChat (sent LLAMA QUESTION 0.2%float 400)], fresh,
         inl (strip (str_stub (PStr padded))))
      /\ trims_to (str_stub (PStr padded)) (strip (str_stub (PStr padded))))
  /\ Builtin.generate_response_with_groq (Some (failing_client e)) QUESTION
       LLAMA fresh
     = ([EvChat req'], fresh,
        inl (lit " Error generating response: " ++ lit "rate limit"))
  /\ (Builtin.generate_response_with_groq
        (Some {| create := fun _ => inl (completion_obj (PStr padded)) |})
        QUESTION LLAMA fresh
      = ([EvChat req'], fresh, inl (strip padded))
      /\ trims_to padded (strip padded)).
Proof.
  cbv zeta. split; [| split; [| split; [| split]]].
  - pose proof (generate_response_never_raises_and_trims str_stub None
                  (failing_client (Exn BackendError (lit "rate limit")))
                  QUESTION LLAMA 0.2%float 400 fresh) as H.
    cbv zeta in H. destruct H as (_ & H & _).
    apply (H (Exn BackendError (lit "rate limit"))). reflexivity.
  - pose proof (generate_response_never_raises_and_trims str_stub None
                  {| create := fun _ =>
                       inl (completion_dict (PStr (lit "  I know Python.  "))) |}
                  QUESTION LLAMA 0.2%float 400 fresh) as H.
    cbv zeta in H. destruct H as (_ & _ & H & _).
    apply (H (completion_dict (PStr (lit "  I know Python.  ")))).
    + reflexivity.
    + right. apply completion_dict_has_content.
  - pose proof (generate_response_never_raises_and_trims str_stub None
                  {| create := fun _ => inl (PStr (lit "  I know Python.  ")) |}
                  QUESTION LLAMA 0.2%float 400 fresh) as H.
    cbv zeta in H. destruct H as (_ & _ & _ & H & _).
    apply (H (PStr (lit "  I know Python.  "))).
    + reflexivity.
    + split; reflexivity.
  - pose proof (generate_response_never_raises_and_trims str_stub None
                  (failing_client (Exn BackendError (lit "rate limit")))
                  QUESTION LLAMA 0.2%float 400 fresh) as H.
    cbv zeta in H. destruct H as (_ & _ & _ & _ & _ & H & _).
    apply (H (Exn BackendError (lit "rate limit"))); reflexivity.
  - pose proof (generate_response_never_raises_and_trims str_stub None
                  {| create := fun _ =>
                       inl (completion_obj (PStr (lit "  I know Python.  "))) |}
                  QUESTION LLAMA 0.2%float 400 fresh) as H.
    cbv zeta in H. destruct H as (_ & _ & _ & _ & _ & _ & H).
    apply (H (completion_obj (PStr (lit "  I know Python.  ")))).
    + reflexivity.
    + apply completion_obj_has_content.
Defined.

Lemma query_vectors_never_raises_witness :
  let g := loaded (mock_model 384) in
  let t := [EvEncode QUESTION] in
  let v := repeat 1%float 384 ++ repeat 0%float (1536 - 384) in
  let run res := Manual.query_vectors None (Some (mock_index res)) QUESTION 3 g in
  Manual.query_vectors None (Some failing_index) QUESTION 3 g
  = (t ++ [EvQuery v 3], g, inl [])
  /\ run (PInt 5) = (t ++ [EvQuery v 3], g, inl [])
  /\ run (PDict [(lit "results", PInt 5)]) = (t ++ [EvQuery v 3], g, inl [])
  /\ run (PList [PDict [(lit "metadata", PStr (lit "oops"))]])
     = (t ++ [EvQuery v 3], g, inl [])
  /\ exists hits,
       run (PList [PInt 5; PStr (lit "a")])
       = (t ++ [EvQuery v 3], g, inl hits)
       /\ length hits = 2
       /\ (forall i h,
             nth_error [PInt 5; PStr (lit "a")] i = Some h ->
             not_a_hit h = true ->
             nth_error hits i = Some (normalized PNone [])).
Proof.
  cbv zeta. split; [| split; [| split; [| split]]].
  - destruct (query_vectors_never_raises None (Some failing_index)
                failing_index QUESTION 3 (loaded (mock_model 384))
                (loaded (mock_model 384)) [EvEncode QUESTION]
                (repeat 1%float 384 ++ repeat 0%float (1536 - 384)))
      as [_ H].
    destruct H as [H _]; [vm_compute; reflexivity |].
    apply (H (Exn BackendError (lit "network failure"))). reflexivity.
  - destruct (query_vectors_never_raises None None (mock_index (PInt 5))
                QUESTION 3 (loaded (mock_model 384))
                (loaded (mock_model 384)) [EvEncode QUESTION]
                (repeat 1%float 384 ++ repeat 0%float (1536 - 384)))
      as [_ H].
    destruct H as [_ H]; [vm_compute; reflexivity |].
    destruct (H (PInt 5) eq_refl) as (H1 & _ & _).
    apply H1; reflexivity.
  - destruct (query_vectors_never_raises None None
                (mock_index (PDict [(lit "results", PInt 5)]))
                QUESTION 3 (loaded (mock_model 384))
                (loaded (mock_model 384)) [EvEncode QUESTION]
                (repeat 1%float 384 ++ repeat 0%float (1536 - 384)))
      as [_ H].
    destruct H as [_ H]; [vm_compute; reflexivity |].
    destruct (H (PDict [(lit "results", PInt 5)]) eq_refl) as (_ & H2 & _).
    apply H2. reflexivity.
  - destruct (query_vectors_never_raises None None
                (mock_index
                   (PList [PDict [(lit "metadata", PStr (lit "oops"))]]))
                QUESTION 3 (loaded (mock_model 384))
                (loaded (mock_model 384)) [EvEncode QUESTION]
                (repeat 1%float 384 ++ repeat 0%float (1536 - 384)))
      as [_ H].
    destruct H as [_ H]; [vm_compute; reflexivity |].
    destruct (H (PList [PDict [(lit "metadata", PStr (lit "oops"))]]) eq_refl)
      as (_ & _ & H3).
    destruct (H3 [PDict [(lit "metadata", PStr (lit "oops"))]] eq_refl)
      as [H4 _].
    apply H4. reflexivity.
  - destruct (query_vectors_never_raises None None
                (mock_index (PList [PInt 5; PStr (lit "a")]))
                QUESTION 3 (loaded (mock_model 384))
                (loaded (mock_model 384)) [EvEncode QUESTION]
                (repeat 1%float 384 ++ repeat 0%float (1536 - 384)))
      as [_ H].
    destruct H as [_ H]; [vm_compute; reflexivity |].
    destruct (H (PList [PInt 5; PStr (lit "a")]) eq_refl) as (_ & _ & H3).
    destruct (H3 [PInt 5; PStr (lit "a")] eq_refl) as [_ H5].
    apply H5. reflexivity.
Defined.

(** C8 as stated fails on a response that is malformed without making
    the loop raise: the list [[5]] and the mapping [{matches: "ab"}] come
    back as hits with no score, empty metadata and empty text, one per
    item, not as the empty list; and [rag_query] then goes on to the
    generator with them. *)
Lemma junk_response_becomes_hits :
  let g := loaded (mock_model 384) in
  let run res := Manual.query_vectors None (Some (mock_index res)) QUESTION 3 g in
  let answer res :=
    Manual.rag_query None LLAMA str_stub (Some (mock_index res))
      (Some echo_client) QUESTION 3 g in
  snd (run (PList [PInt 5])) = inl [normalized PNone []]
  /\ snd (run (PDict [(lit "matches", PStr (lit "ab"))]))
     = inl [normalized PNone []; normalized PNone []]
  /\ snd (run (PList [PInt 5])) <> inl []
  /\ snd (run (PDict [(lit "matches", PStr (lit "ab"))])) <> inl []
  /\ ~ no_generation (fst (fst (answer (PList [PInt 5]))))
  /\ snd (answer (PList [PInt 5])) <> inl Manual.NOT_FOUND.
Proof.
  cbv zeta. split; [| split; [| split; [| split; [| split]]]].
  - vm_compute. reflexivity.
  - vm_compute. reflexivity.
  - vm_compute. intros H. discriminate H.
  - vm_compute. intros H. discriminate H.
  - unfold no_generation. vm_compute. discriminate.
  - vm_compute. intros H. discriminate H.
Qed.

(* ------------------------------------------------------------------ *)
(** ** Further properties of the first program *)

Section ManualMore.

Variable SentenceTransformer : option (pystr -> exc model).

(** X1.  Once [get_embedding_model] has returned a model, the global
    holds it, at most one load was issued, and every later call returns
    the same model without loading again, whatever has become of the
    [SentenceTransformer] class. *)
Theorem embedding_model_loaded_once :
  forall (ST' : option (pystr -> exc model)) (g g' : globals)
         (t : list event) (m : model),
    Manual.get_embedding_model SentenceTransformer g = (t, g', inl (Some m)) ->
    _embedding_model g' = Some m
    /\ (t = [] \/ t = [EvLoadModel Manual.MODEL_NAME])
    /\ Manual.get_embedding_model ST' g' = ([], g', inl (Some m)).
Proof.
  intros ST' g g' t m H.
  unfold Manual.get_embedding_model, bind, get_globals in H.
  destruct (_embedding_model g) as [m0 |] eqn:Eg.
  - cbn in H. inversion H; subst. rewrite Eg. repeat split.
    + now left.
    + unfold Manual.get_embedding_model, bind, get_globals. now rewrite Eg.
  - destruct SentenceTransformer as [ctor |]; [| discriminate].
    unfold try_except, bind, call, put_globals, ret in H.
    destruct (ctor Manual.MODEL_NAME) as [m0 | e]; [| discriminate].
    cbn in H. inversion H; subst. repeat split. now right.
Qed.

(** X2.  While no model is loaded, a missing class or a constructor that
    raises makes [get_embedding_model] return [None] without raising, and
    the global stays unset: the next call tries the load again. *)
Theorem embedding_model_failure_is_retried :
  forall (g : globals),
    _embedding_model g = None ->
    (SentenceTransformer = None ->
     Manual.get_embedding_model SentenceTransformer g = ([], g, inl None))
    /\ (forall ctor e,
          SentenceTransformer = Some ctor ->
          ctor Manual.MODEL_NAME = inr e ->
          Manual.get_embedding_model SentenceTransformer g
          = ([EvLoadModel Manual.MODEL_NAME], g, inl None)).
Proof.
  intros g Hg. split.
  - intros ->. unfold Manual.get_embedding_model, bind, get_globals.
    now rewrite Hg.
  - intros ctor e -> He.
    unfold Manual.get_embedding_model, bind, get_globals. rewrite Hg.
    unfold try_except, bind, call. now rewrite He.
Qed.

(** The calls [embed_text] can make: at most one load, then at most one
    encoding. *)
Lemma embed_text_trace (text : pystr) (g : globals) :
  exists t g' r,
    Manual.embed_text SentenceTransformer text g = (t, g', inl r)
    /\ (t = [] \/ t = [EvLoadModel Manual.MODEL_NAME] \/ t = [EvEncode text]
        \/ t = [EvLoadModel Manual.MODEL_NAME; EvEncode text]).
Proof.
  unfold Manual.embed_text, Manual.get_embedding_model, bind, get_globals.
  destruct (_embedding_model g) as [m |].
  - unfold ret, try_except, bind, call.
    destruct (encode m text); do 3 eexists; (split; [reflexivity | auto]).
  - destruct SentenceTransformer as [ctor |].
    + unfold try_except, bind, call, put_globals, ret.
      destruct (ctor Manual.MODEL_NAME) as [m | e].
      * destruct (encode m text); do 3 eexists;
          (split; [reflexivity | cbn; auto]).
      * do 3 eexists. split; [reflexivity | cbn; auto].
    + do 3 eexists. split; [reflexivity | auto].
Qed.

(** X3.  [embed_text] never raises and never touches the index or the
    generator; when the loaded encoder raises, and when no model can be
    had (the class is missing, or its constructor raises), its result is
    [None]. *)
Theorem embed_text_failure_is_none :
  forall (text : pystr) (g : globals),
    (exists t g' r,
        Manual.embed_text SentenceTransformer text g = (t, g', inl r)
        /\ count_events is_query t = 0 /\ count_events is_chat t = 0)
    /\ (forall m e,
          _embedding_model g = Some m -> encode m text = inr e ->
          Manual.embed_text SentenceTransformer text g
          = ([EvEncode text], g, inl None))
    /\ (_embedding_model g = None -> SentenceTransformer = None ->
        Manual.embed_text SentenceTransformer text g = ([], g, inl None))
    /\ (forall ctor e,
          _embedding_model g = None -> SentenceTransformer = Some ctor ->
          ctor Manual.MODEL_NAME = inr e ->
          Manual.embed_text SentenceTransformer text g
          = ([EvLoadModel Manual.MODEL_NAME], g, inl None)).
Proof.
  intros text g. split; [| split; [| split]].
  - destruct (embed_text_trace text g) as (t & g' & r & Hrun & Ht).
    exists t, g', r. split; [exact Hrun |].
    destruct Ht as [-> | [-> | [-> | ->]]]; split; reflexivity.
  - intros m e Hg He.
    unfold Manual.embed_text, Manual.get_embedding_model, bind, get_globals.
    rewrite Hg. unfold ret, try_except, bind, call. now rewrite He.
  - intros Hg Hst.
    unfold Manual.embed_text, Manual.get_embedding_model, bind, get_globals.
    rewrite Hg, Hst. reflexivity.
  - intros ctor e Hg Hst He.
    unfold Manual.embed_text, Manual.get_embedding_model, bind, get_globals.
    rewrite Hg, Hst. unfold try_except, bind, call. rewrite He. reflexivity.
Qed.

(** X4.  Without an index [query_vectors] does nothing at all, not even
    the embedding; and when the embedding is unavailable it returns the
    empty list without querying the index. *)
Theorem query_vectors_skips_index_without_embedding :
  forall (idx : Index) (q : pystr) (k : Z) (g g' : globals) (t : list event),
    Manual.query_vectors SentenceTransformer None q k g = ([], g, inl [])
    /\ (Manual.embed_text SentenceTransformer q g = (t, g', inl None) ->
        Manual.query_vectors SentenceTransformer (Some idx) q k g
        = (t, g', inl [])
        /\ count_events is_query t = 0).
Proof.
  intros idx q k g g' t. split; [reflexivity |].
  intros He. split.
  - unfold Manual.query_vectors, bind. rewrite He. unfold ret.
    now rewrite app_nil_r.
  - destruct (embed_text_trace q g) as (t0 & g0 & r & Hrun & Ht).
    rewrite He in Hrun. inversion Hrun; subst.
    destruct Ht as [-> | [-> | [-> | ->]]]; reflexivity.
Qed.

(** X5.  When the index answers with a mapping under [results], a
    mapping under [matches] or a bare list of mapping-style hits,
    [query_vectors] returns one normalised hit per hit of the response,
    in the order of the response, each with the score, the metadata and
    the display text probed as content, text, title, "". *)
Theorem query_vectors_mapping_shapes :
  forall (idx : Index) (q : pystr) (k : Z) (g g' : globals) (t : list event)
         (v : list float) (hs : list hit_data) (res : pyval),
    Manual.embed_text SentenceTransformer q g = (t, g', inl (Some v)) ->
    query idx v k = inl res ->
    res = results_response hs \/ res = matches_response hs
    \/ res = bare_response hs ->
    Manual.query_vectors SentenceTransformer (Some idx) q k g
    = (t ++ [EvQuery v k], g',
       inl (map (fun h => normalized (fst h) (snd h)) hs)).
Proof.
  intros idx q k g g' t v hs res He Hq Hres.
  rewrite (query_vectors_embedded SentenceTransformer idx q k g g' t v He).
  rewrite Hq. cbn [ebind].
  destruct (mapping_shapes_agree hs) as (Hr & Hm & Hb).
  destruct Hres as [-> | [-> | ->]]; [rewrite Hr | rewrite Hm | rewrite Hb];
    reflexivity.
Qed.

(** X6.  A list of attribute-style hits gives the same normalised hits
    as the mapping styles provided every score is truthy or [None]. *)
Theorem query_vectors_object_shape :
  forall (idx : Index) (q : pystr) (k : Z) (g g' : globals) (t : list event)
         (v : list float) (hs : list hit_data),
    Manual.embed_text SentenceTransformer q g = (t, g', inl (Some v)) ->
    query idx v k = inl (object_response hs) ->
    Forall (fun h => truthy (fst h) = true \/ fst h = PNone) hs ->
    Manual.query_vectors SentenceTransformer (Some idx) q k g
    = (t ++ [EvQuery v k], g',
       inl (map (fun h => normalized (fst h) (snd h)) hs)).
Proof.
  intros idx q k g g' t v hs He Hq Hs.
  rewrite (query_vectors_embedded SentenceTransformer idx q k g g' t v He).
  rewrite Hq. cbn [ebind]. now rewrite (object_shape_agrees hs Hs).
Qed.

End ManualMore.

Section PipelineMore.

Variable SentenceTransformer : option (pystr -> exc model).
Variable DEFAULT_MODEL : pystr.
Variable py_str : pyval -> pystr.

Lemma no_generation_count (t : list event) :
  no_generation t -> count_events is_chat t = 0.
Proof.
  unfold no_generation, count_events.
  induction t as [| ev t IH]; [reflexivity |].
  cbn [forallb filter]. intros H. apply andb_prop in H as [Hev Ht].
  destruct (is_chat ev); [discriminate | now apply IH].
Qed.

Lemma context_entry_text_hit (title text : pystr) :
  Manual.context_entry py_str (text_hit title text)
  = inl (PStr (context_line title text)).
Proof.
  destruct title as [| c title]; destruct text as [| d text]; reflexivity.
Qed.

Lemma as_strs_strings (ls : list pystr) :
  as_strs (map PStr ls) = inl ls.
Proof.
  unfold as_strs. generalize 0.
  induction ls as [| l ls IH]; intros i; [reflexivity |].
  cbn [map as_strs_from]. now rewrite IH.
Qed.

(** X7.  For hits with string titles and texts the context block is the
    lines of the hits joined by a blank line, one line per hit in the
    order of the hits: "title: text" under a title, the bare text
    without one.  No hit is dropped, whatever its text. *)
Theorem context_block_lines :
  forall (hs : list (pystr * pystr)),
    Manual.context_block py_str (map (fun h => text_hit (fst h) (snd h)) hs)
    = inl (join (NL ++ NL)
             (map (fun h => context_line (fst h) (snd h)) hs)).
Proof.
  intros hs. unfold Manual.context_block, Manual.contexts.
  assert (H : emap (Manual.context_entry py_str)
                (map (fun h => text_hit (fst h) (snd h)) hs)
              = inl (map PStr
                       (map (fun h => context_line (fst h) (snd h)) hs))).
  { induction hs as [| [title text] hs IH]; [reflexivity |].
    cbn [map emap fst snd]. rewrite context_entry_text_hit, IH. reflexivity. }
  rewrite H. cbn [ebind]. unfold py_join. now rewrite as_strs_strings.
Qed.

(** X8.  [rag_query] of the first program has no handler of its own: an
    exception raised while the context block is assembled reaches the
    caller, after the retrieval and before any call to the generator.
    A hit without title whose content is a non-zero number is such a
    case: the join of the block raises. *)
Theorem rag_query_propagates_assembly_error :
  forall (index : option Index) (client : option Groq) (q : pystr) (k : Z)
         (g g' : globals) (t : list event) (hits : list pyval) (e : exn),
    q <> [] ->
    Manual.query_vectors SentenceTransformer index q k g = (t, g', inl hits) ->
    Manual.context_block py_str hits = inr e ->
    Manual.rag_query SentenceTransformer DEFAULT_MODEL py_str index client q k g
    = (t, g', inr e)
    /\ count_events is_chat t = 0
    /\ (forall z score,
          z <> 0%Z ->
          exists e',
            Manual.context_block py_str
              [normalized score [(lit "content", PInt z)]] = inr e'
            /\ exn_cls e' = TypeError).
Proof.
  intros index client q k g g' t hits e Hq Hr Hcb. split; [| split].
  - rewrite (rag_query_retrieves SentenceTransformer DEFAULT_MODEL py_str
               index client q k g g' t hits Hq Hr).
    destruct hits as [| h hits]; [discriminate Hcb |]. now rewrite Hcb.
  - destruct (query_vectors_total SentenceTransformer index q k g)
      as (t0 & g0 & hits0 & H & Hn).
    rewrite Hr in H. inversion H; subst t0.
    now apply no_generation_count.
  - intros z score Hz.
    destruct z as [| p | p]; [congruence | |];
      (eexists; split; [cbn; reflexivity | reflexivity]).
Qed.


(** The calls [query_vectors] can make: those of [embed_text], then at
    most one query. *)
Lemma query_vectors_counts (index : option Index) (q : pystr) (k : Z)
    (g : globals) :
  let t := fst (fst (Manual.query_vectors SentenceTransformer index q k g)) in
  count_events is_load t <= 1 /\ count_events is_encode t <= 1
  /\ count_events is_query t <= 1 /\ count_events is_chat t = 0.
Proof.
  cbv zeta. destruct index as [idx |]; [| cbn; lia].
  destruct (embed_text_trace SentenceTransformer q g)
    as (t & g' & r & He & Ht).
  destruct r as [v |].
  - rewrite (query_vectors_embedded SentenceTransformer idx q k g g' t v He).
    cbn [fst].
    destruct Ht as [-> | [-> | [-> | ->]]]; cbn; lia.
  - unfold Manual.query_vectors, bind. rewrite He. cbn [fst ret].
    rewrite app_nil_r.
    destruct Ht as [-> | [-> | [-> | ->]]]; cbn; lia.
Qed.

Lemma count_events_app (kind : event -> bool) (t t' : list event) :
  count_events kind (t ++ t') = count_events kind t + count_events kind t'.
Proof. unfold count_events. now rewrite filter_app, length_app. Qed.

(** X10.  One call of [rag_query] issues at most one model load, one
    encoding, one index query and one chat request, whatever the index,
    the client, the question and the globals. *)
Theorem rag_query_call_budget :
  forall (index : option Index) (client : option Groq) (q : pystr) (k : Z)
         (g : globals),
    let t :=
      fst (fst (Manual.rag_query SentenceTransformer DEFAULT_MODEL py_str
                  index client q k g)) in
    count_events is_load t <= 1 /\ count_events is_encode t <= 1
    /\ count_events is_query t <= 1 /\ count_events is_chat t <= 1.
Proof.
  intros index client q k g. cbv zeta.
  destruct q as [| c q]; [cbn; lia |].
  pose proof (query_vectors_counts index (c :: q) k g) as Hc. cbv zeta in Hc.
  destruct (Manual.query_vectors SentenceTransformer index (c :: q) k g)
    as [[t g'] r] eqn:Hr.
  cbn [fst] in Hc.
  destruct (query_vectors_total SentenceTransformer index (c :: q) k g)
    as (t0 & g0 & hits & H & _).
  rewrite Hr in H. inversion H; subst t0 g0 r.
  rewrite (rag_query_retrieves SentenceTransformer DEFAULT_MODEL py_str
             index client (c :: q) k g g' t hits ltac:(discriminate) Hr).
  destruct hits as [| h hits]; [cbn [fst]; lia |].
  destruct (Manual.context_block py_str (h :: hits)) as [cb | e];
    [| cbn [fst]; lia].
  destruct client as [cl |].
  - rewrite generate_run. cbn [fst]. rewrite !count_events_app.
    change (count_events is_load [EvChat _]) with 0.
    change (count_events is_encode [EvChat _]) with 0.
    change (count_events is_query [EvChat _]) with 0.
    change (count_events is_chat [EvChat _]) with 1.
    lia.
  - cbn [Manual.generate_response_with_groq ret fst]. rewrite app_nil_r. lia.
Qed.


(** X12.  The generator of the second program reads the SDK shape only:
    a completion without a [choices] attribute, such as a plain mapping,
    gives the error string, not its content. *)
Theorem builtin_generator_reads_sdk_shape_only :
  forall (c : Groq) (prompt model : pystr) (g : globals) (completion : pyval),
    let req := {| req_model := model; req_system := Builtin.SYSTEM_PROMPT;
                  req_user := prompt; req_temperature := 0.7%float;
                  req_max_tokens := 500 |} in
    create c req = inl completion ->
    Manual.hasattr completion "choices" = false ->
    exists msg,
      Builtin.generate_response_with_groq (Some c) prompt model g
      = ([EvChat req], g, inl (Builtin.ERROR_MARKER ++ msg)).
Proof.
  intros c prompt model g completion req Hc Hno. subst req.
  unfold Builtin.generate_response_with_groq, try_except, bind, call, lift, ret.
  rewrite Hc.
  assert (Hg : exists e, getattr completion "choices" = inr e).
  { unfold Manual.hasattr in Hno. unfold getattr.
    destruct completion; eauto.
    destruct (assoc (lit "choices") attrs); [discriminate | eauto]. }
  destruct Hg as [e ->]. cbn. eexists. reflexivity.
Qed.





End PipelineMore.

(* ------------------------------------------------------------------ *)
(** ** Ingestion *)

Section Ingestion.

Variable py_str : pyval -> pystr.
Variable int_of_float : float -> option Z.
Variable int_of_str : pystr -> option Z.

Local Abbreviation manual_setup :=
  (ManualSetup.setup_vector_database py_str int_of_float int_of_str).
Local Abbreviation manual_vector := (ManualSetup.vector_of_chunk py_str).

Lemma str_eqb_refl (k : pystr) : str_eqb k k = true.
Proof.
  induction k as [| c k IH]; [reflexivity |].
  cbn. now rewrite N.eqb_refl, IH.
Qed.

Lemma str_eqb_eq (a b : pystr) : str_eqb a b = true -> a = b.
Proof.
  revert b. induction a as [| x a IH]; intros [| y b] H;
    try reflexivity; try discriminate.
  cbn in H. apply andb_prop in H as [Hxy Hab].
  apply N.eqb_eq in Hxy. subst y. f_equal. now apply IH.
Qed.

(** Lookup after update, on the updated key and on any other key. *)
Lemma assoc_dict_set_same (d : list (pystr * pyval)) (k : pystr) (v : pyval) :
  assoc k (dict_set d k v) = Some v.
Proof.
  induction d as [| [k' v'] d IH]; cbn.
  - now rewrite str_eqb_refl.
  - destruct (str_eqb k k') eqn:E; cbn; rewrite E; [reflexivity | exact IH].
Qed.

Lemma assoc_dict_set_other (d : list (pystr * pyval)) (k k0 : pystr)
    (v : pyval) :
  str_eqb k0 k = false ->
  assoc k0 (dict_set d k v) = assoc k0 d.
Proof.
  intros Hk. induction d as [| [k' v'] d IH]; cbn.
  - now rewrite Hk.
  - destruct (str_eqb k k') eqn:E; cbn.
    + apply str_eqb_eq in E. subst k'. now rewrite Hk.
    + destruct (str_eqb k0 k'); [reflexivity | exact IH].
Qed.

Lemma sio_total {A} (m : sio (option A)) :
  exists t r, stry m (sret None) = (t, Some r).
Proof.
  destruct m as [t [r |]]; do 2 eexists; reflexivity.
Qed.

(** X14.  [setup_vector_database] of the first program never raises; and
    when the [Index] class is missing, or the URL or the token is unset
    or empty, it returns [None] without any call. *)
Theorem manual_setup_needs_credentials :
  forall (w : setup_world),
    (exists t r, manual_setup w = (t, Some r))
    /\ (Index_cls w = None
        \/ getenv w "UPSTASH_VECTOR_REST_URL" = None
        \/ getenv w "UPSTASH_VECTOR_REST_URL" = Some []
        \/ getenv w "UPSTASH_VECTOR_REST_TOKEN" = None
        \/ getenv w "UPSTASH_VECTOR_REST_TOKEN" = Some [] ->
        manual_setup w = ([], Some None)).
Proof.
  intros w. split.
  - unfold ManualSetup.setup_vector_database.
    destruct (Index_cls w) as [ctor |]; [| do 2 eexists; reflexivity].
    destruct (getenv w "UPSTASH_VECTOR_REST_URL") as [[| c url] |];
      try (do 2 eexists; reflexivity);
      destruct (getenv w "UPSTASH_VECTOR_REST_TOKEN") as [[| d token] |];
      try (do 2 eexists; reflexivity).
    apply sio_total.
  - intros H. unfold ManualSetup.setup_vector_database.
    destruct (Index_cls w) as [ctor |]; [| reflexivity].
    destruct H as [H | [H | [H | [H | H]]]]; try discriminate; rewrite H;
      try reflexivity;
      destruct (getenv w "UPSTASH_VECTOR_REST_URL") as [[| c url] |];
      reflexivity.
Qed.

(** X15.  An index whose [info()] reports a non-zero [vector_count] is
    left alone: the profile file is not read and nothing is upserted; the
    index is returned. *)
Theorem manual_setup_skips_filled_index :
  forall (w : setup_world) ctor (url token : pystr) (store : Store)
         (attrs : list (pystr * pyval)) (n : Z),
    Index_cls w = Some ctor ->
    getenv w "UPSTASH_VECTOR_REST_URL" = Some url -> url <> [] ->
    getenv w "UPSTASH_VECTOR_REST_TOKEN" = Some token -> token <> [] ->
    ctor url token = inl store ->
    info store = inl (PObj attrs) ->
    assoc (lit "vector_count") attrs = Some (PInt n) ->
    n <> 0%Z ->
    manual_setup w = ([SeConnect url token; SeInfo], Some (Some store)).
Proof.
  intros w ctor url token store attrs n Hcls Hu Hune Ht Htne Hc Hi Hvc Hn.
  unfold ManualSetup.setup_vector_database. rewrite Hcls, Hu, Ht.
  destruct url as [| c url]; [congruence |].
  destruct token as [| d token]; [congruence |].
  unfold stry, sbind, scall. rewrite Hc. cbn [ok]. rewrite Hi. cbn [ok].
  unfold ManualSetup.current_count, getattr_default. rewrite Hvc.
  cbn [ManualSetup.py_int]. apply Z.eqb_neq in Hn. rewrite Hn. reflexivity.
Qed.

(** X16.  With an empty index (its [info()] raises or reports no
    vectors), a readable profile and well-formed chunks, the setup makes
    one upsert of one vector per chunk, in the order of the chunks, and
    returns the index whether the upsert succeeds or raises. *)
Theorem manual_setup_ingests_once :
  forall (w : setup_world) ctor (url token : pystr) (store : Store)
         (dd : list (pystr * pyval)) (cs : list pyval)
         (vectors : list vector_entry),
    Index_cls w = Some ctor ->
    getenv w "UPSTASH_VECTOR_REST_URL" = Some url -> url <> [] ->
    getenv w "UPSTASH_VECTOR_REST_TOKEN" = Some token -> token <> [] ->
    ctor url token = inl store ->
    (exists e, info store = inr e) \/ info store = inl PNone ->
    json_exists w = true ->
    json_load w = inl (PDict dd) ->
    assoc (lit "content_chunks") dd = Some (PList cs) ->
    cs <> [] ->
    omap manual_vector cs = Some vectors ->
    manual_setup w
    = ([SeConnect url token; SeInfo; SeRead; SeUpsert vectors],
       Some (Some store))
    /\ length vectors = length cs.
Proof.
  intros w ctor url token store dd cs vectors Hcls Hu Hune Ht Htne Hc Hi
    Hex Hload Hchunks Hcs Hv.
  assert (Hlen : length vectors = length cs).
  { clear - Hv. revert vectors Hv.
    induction cs as [| c cs IH]; intros vectors Hv; cbn [omap] in Hv.
    - now inversion Hv.
    - destruct (manual_vector c) as [y |]; cbn [obind] in Hv; [| discriminate].
      destruct (omap manual_vector cs) as [ys |]; cbn [obind] in Hv;
        [| discriminate].
      inversion Hv; subst. cbn. now rewrite (IH ys eq_refl). }
  split; [| exact Hlen].
  unfold ManualSetup.setup_vector_database. rewrite Hcls, Hu, Ht.
  destruct url as [| c url]; [congruence |].
  destruct token as [| d token]; [congruence |].
  assert (Hinfo : stry (scall SeInfo (info store)) (sret PNone)
                  = ([SeInfo], Some PNone)).
  { destruct Hi as [[e He] | He]; rewrite He; reflexivity. }
  unfold sbind at 1. unfold scall at 1. rewrite Hc. cbn [ok].
  unfold sbind at 1. rewrite Hinfo.
  cbn [ManualSetup.current_count Z.eqb].
  unfold ManualSetup.ingest. rewrite Hex, Hload.
  cbn [sbind scall ok slift as_dict sret app].
  unfold dict_get. rewrite Hchunks.
  destruct cs as [| c0 cs']; [congruence |].
  change (PList (c0 :: cs') |or| _ |or| PList []) with (PList (c0 :: cs')).
  cbn [truthy negb as_dict ok iterate slift scall sbind sret app].
  rewrite Hv.
  destruct vectors as [| v0 vs]; [cbn in Hlen; discriminate |].
  unfold stry, scall. destruct (upsert store (v0 :: vs)); reflexivity.
Qed.

(** X17.  Every vector the first program builds from a chunk carries the
    chunk's title under [title] in its metadata, overriding a title the
    chunk's own metadata may hold. *)
Theorem manual_vector_metadata_has_title :
  forall (cd : list (pystr * pyval)) (ve : vector_entry),
    manual_vector (PDict cd) = Some ve ->
    assoc (lit "title") (ve_metadata ve) = Some (dict_get cd "title" (PStr [])).
Proof.
  intros cd ve H. unfold ManualSetup.vector_of_chunk in H.
  cbn [as_dict ok obind] in H.
  destruct (if truthy _ then _ else _) as [id_src |]; cbn [obind] in H;
    [| discriminate].
  inversion H; subst. cbn [ve_metadata]. apply assoc_dict_set_same.
Qed.

Lemma context_entry_normalized (score : pyval) (md : list (pystr * pyval)) :
  md <> [] ->
  Manual.context_entry py_str (normalized score md)
  = let text :=
      display_text md |or| dict_get md "content" PNone
      |or| dict_get md "text" PNone |or| PStr [] in
    let title :=
      dict_get md "title" PNone |or| dict_get md "section" PNone |or| PStr [] in
    if truthy title then inl (PStr (Manual.fmt py_str title ++ lit ": "
                                    ++ Manual.fmt py_str text))
    else inl text.
Proof.
  intros Hmd. unfold Manual.context_entry, normalized.
  cbn [as_dict ebind].
  change (dict_get _ "metadata" PNone) with (PDict md).
  change (dict_get [(lit "score", score); (lit "metadata", PDict md);
                    (lit "text", display_text md)] "text" PNone)
    with (display_text md).
  destruct md as [| kv md]; [congruence |].
  change (PDict (kv :: md) |or| PDict []) with (PDict (kv :: md)).
  reflexivity.
Qed.

(** X18.  A chunk with a title and a content, ingested by the first
    program, comes back from the index with its title as display text:
    its own metadata holding no content and no text, the context line of
    the hit is "title: title", and the content, which was sent as the
    text to embed, is not in the context. *)
Theorem manual_ingested_chunk_shows_title_only :
  forall (cd md0 : list (pystr * pyval)) (title content : pystr)
         (ve : vector_entry) (score : pyval),
    assoc (lit "title") cd = Some (PStr title) -> title <> [] ->
    assoc (lit "content") cd = Some (PStr content) -> content <> [] ->
    dict_get cd "metadata" (PDict []) = PDict md0 ->
    assoc (lit "content") md0 = None ->
    assoc (lit "text") md0 = None ->
    manual_vector (PDict cd) = Some ve ->
    ve_data ve = PStr (title ++ lit ": " ++ content)
    /\ display_text (ve_metadata ve) = PStr title
    /\ Manual.context_entry py_str (normalized score (ve_metadata ve))
       = inl (PStr (title ++ lit ": " ++ title)).
Proof.
  intros cd md0 title content ve score Ht Htne Hc Hcne Hmd Hmc Hmt H.
  unfold ManualSetup.vector_of_chunk in H. cbn [as_dict ok obind] in H.
  destruct (if truthy _ then _ else _) as [id_src |]; cbn [obind] in H;
    [| discriminate].
  rewrite Hmd in H. unfold dict_get in H. rewrite Ht, Hc in H.
  destruct title as [| a title]; [congruence |].
  destruct content as [| b content]; [congruence |].
  cbn [truthy por] in H. inversion H; subst; clear H.
  cbn [ve_data ve_metadata ManualSetup.fmt].
  set (md := dict_set md0 (lit "title") (PStr (a :: title))).
  assert (Htitle : assoc (lit "title") md = Some (PStr (a :: title)))
    by apply assoc_dict_set_same.
  assert (Hcontent : assoc (lit "content") md = None)
    by (unfold md; rewrite assoc_dict_set_other; [exact Hmc | reflexivity]).
  assert (Htext : assoc (lit "text") md = None)
    by (unfold md; rewrite assoc_dict_set_other; [exact Hmt | reflexivity]).
  assert (Hdisp : display_text md = PStr (a :: title)).
  { unfold display_text, dict_get. now rewrite Hcontent, Htext, Htitle. }
  split; [reflexivity | split; [exact Hdisp |]].
  rewrite context_entry_normalized.
  - rewrite Hdisp. unfold dict_get. rewrite Htitle. reflexivity.
  - intros Hnil. rewrite Hnil in Htitle. discriminate.
Qed.

(** X19.  [setup_vector_database] of the second program never raises,
    and its ingestion is all or nothing.  On an index that looks empty,
    because [info()] raises or because the [vector_count] it reports
    (0 when it reports none) equals 0: when one chunk lacks a key it
    needs, nothing is upserted and the result is [None]; so is it when
    the upsert raises; otherwise the index is returned after one upsert
    of all the vectors. *)
Theorem builtin_setup_all_or_nothing :
  forall (w : setup_world) (store : Store) (pd : list (pystr * pyval))
         (cs : list pyval),
    (exists t r, BuiltinSetup.setup_vector_database py_str w = (t, Some r))
    /\ (from_env w = inl store ->
        (exists e, info store = inr e)
        \/ (exists i, info store = inl i
                      /\ eq_zero (getattr_default i "vector_count" (PInt 0))
                         = true) ->
        json_load w = inl (PDict pd) ->
        assoc (lit "content_chunks") pd = Some (PList cs) ->
        cs <> [] ->
        (omap (BuiltinSetup.vector_of_chunk py_str) cs = None ->
         BuiltinSetup.setup_vector_database py_str w
         = ([SeFromEnv; SeInfo; SeRead], Some None))
        /\ (forall vectors e,
              omap (BuiltinSetup.vector_of_chunk py_str) cs = Some vectors ->
              upsert store vectors = inr e ->
              BuiltinSetup.setup_vector_database py_str w
              = ([SeFromEnv; SeInfo; SeRead; SeUpsert vectors], Some None))
        /\ (forall vectors,
              omap (BuiltinSetup.vector_of_chunk py_str) cs = Some vectors ->
              upsert store vectors = inl tt ->
              BuiltinSetup.setup_vector_database py_str w
              = ([SeFromEnv; SeInfo; SeRead; SeUpsert vectors],
                 Some (Some store)))).
Proof.
  intros w store pd cs. split.
  - unfold BuiltinSetup.setup_vector_database. apply sio_total.
  - intros Hfe Hempty Hload Hchunks Hcs.
    assert (Hinfo : exists c,
               stry (sbind (scall SeInfo (info store)) (fun info =>
                     sret (getattr_default info "vector_count" (PInt 0))))
                    (sret (PInt 0))
               = ([SeInfo], Some c)
               /\ eq_zero c = true).
    { destruct Hempty as [[e0 Hi] | (i & Hi & Hz)]; rewrite Hi.
      - exists (PInt 0). split; reflexivity.
      - exists (getattr_default i "vector_count" (PInt 0)).
        split; [reflexivity | exact Hz]. }
    destruct Hinfo as (c & Hinfo & Hz).
    assert (Hrun : forall r : option (list vector_entry),
               omap (BuiltinSetup.vector_of_chunk py_str) cs = r ->
               BuiltinSetup.setup_vector_database py_str w
               = match r with
                 | None => ([SeFromEnv; SeInfo; SeRead], Some None)
                 | Some vectors =>
                     ([SeFromEnv; SeInfo; SeRead; SeUpsert vectors],
                      Some match upsert store vectors with
                           | inl _ => Some store
                           | inr _ => None
                           end)
                 end).
    { intros r Hr. unfold BuiltinSetup.setup_vector_database.
      unfold scall at 1. rewrite Hfe. cbn [ok]. unfold sbind at 1.
      rewrite Hinfo. unfold sbind at 1. rewrite Hz.
      unfold scall at 1. rewrite Hload. cbn [ok sbind as_dict slift].
      unfold dict_get. rewrite Hchunks.
      destruct cs as [| c0 cs']; [congruence |].
      cbn [truthy negb iterate ok sbind slift]. rewrite Hr.
      destruct r as [vectors |]; [| reflexivity].
      unfold scall. destruct (upsert store vectors) as [[] | e]; reflexivity. }
    split; [| split].
    + intros Hv. now rewrite (Hrun None Hv).
    + intros vectors e Hv Hup. rewrite (Hrun (Some vectors) Hv). now rewrite Hup.
    + intros vectors Hv Hup. rewrite (Hrun (Some vectors) Hv). now rewrite Hup.
Qed.

(** X20.  A chunk with string title and non-empty string content,
    ingested by the second program, comes back whole: the context line
    its [rag_query] builds from the stored metadata is the very text
    that was sent to be embedded, "title: content". *)
Theorem builtin_ingested_chunk_round_trip :
  forall (cd : list (pystr * pyval)) (title content : pystr)
         (ve : vector_entry) (score : float),
    assoc (lit "title") cd = Some (PStr title) ->
    assoc (lit "content") cd = Some (PStr content) -> content <> [] ->
    BuiltinSetup.vector_of_chunk py_str (PDict cd) = Some ve ->
    ve_data ve = PStr (title ++ lit ": " ++ content)
    /\ Builtin.top_doc py_str (index_result (PFloat score) (ve_metadata ve))
       = inl (Some (title ++ lit ": " ++ content)).
Proof.
  intros cd title content ve score Ht Hc Hcne H.
  unfold BuiltinSetup.vector_of_chunk, getitem_key in H.
  rewrite Ht, Hc in H. cbn [obind] in H.
  destruct (assoc (lit "id") cd) as [id |]; cbn [obind] in H; [| discriminate].
  destruct (assoc (lit "type") cd) as [type |]; cbn [obind] in H;
    [| discriminate].
  cbn [as_dict ok obind] in H.
  destruct (ok (as_dict (dict_get cd "metadata" (PDict [])))) as [md |];
    cbn [obind] in H; [| discriminate].
  inversion H; subst; clear H. cbn [ve_data ve_metadata BuiltinSetup.fmt].
  split; [reflexivity |].
  destruct content as [| b content]; [congruence |]. reflexivity.
Qed.

End Ingestion.

(* ------------------------------------------------------------------ *)
(** ** The ingestion scripts *)

Section Scripts.

Variable py_str : pyval -> pystr.

(** X21.  The upload loop of embed_digitaltwin.py never raises and tries
    every chunk once, in order, whatever became of the chunks before it:
    one upsert of one entry for each chunk that has the four keys, none
    for a chunk that lacks one. *)
Theorem upload_attempts_every_chunk :
  forall (store : Store) (chunks : list pyval),
    EmbedDigitalTwin.upload store chunks
    = (flat_map (fun chunk =>
                   match EmbedDigitalTwin.entry_of_chunk chunk with
                   | Some entry => [SeUpsert [entry]]
                   | None => []
                   end) chunks,
       Some tt).
Proof.
  intros store chunks. induction chunks as [| chunk rest IH]; [reflexivity |].
  cbn [EmbedDigitalTwin.upload flat_map]. rewrite IH.
  destruct (EmbedDigitalTwin.entry_of_chunk chunk) as [entry |].
  - cbn [slift sbind stry scall sret]. rewrite app_nil_r.
    destruct (upsert store [entry]) as [[] | e]; cbn [ok];
      rewrite ?app_nil_r; reflexivity.
  - reflexivity.
Qed.



Variable m : model.
Variable json_dumps : pyval -> pystr.

Local Abbreviation add_chunk := (EmbedSimpleChunks.add_chunk m py_str json_dumps).
Local Abbreviation add_chunks :=
  (EmbedSimpleChunks.add_chunks m py_str json_dumps).

Lemma digits_inj (d d' : Decimal.uint) : digits d = digits d' -> d = d'.
Proof.
  revert d'. induction d; destruct d'; cbn [digits]; intros H;
    try reflexivity; try discriminate H;
    inversion H; f_equal; auto.
Qed.

Lemma chunk_id_inj (i j : nat) : chunk_id i = chunk_id j -> i = j.
Proof.
  unfold chunk_id, decimal. intros H. apply app_inv_head in H.
  apply digits_inj in H. now apply Unsigned.to_uint_inj.
Qed.

Lemma create_embedding_length (text : pystr) (v : list float) :
  EmbedSimple.create_embedding m text = inl v -> length v = 1536.
Proof.
  unfold EmbedSimple.create_embedding.
  destruct (encode m text) as [emb | e]; cbn [ebind]; [| discriminate].
  intros H. inversion H. apply pad_then_slice_length.
Qed.

Lemma add_chunk_numbered (category : pystr) (content : pyval)
    (section : pystr) (st st' : script_state) (n : nat) :
  add_chunk category content section st = inl (n, st') ->
  numbered st ->
  numbered st' /\ length (vectors st') = S (length (vectors st)).
Proof.
  unfold EmbedSimpleChunks.add_chunk. intros H (Hc & Hids & Hsz).
  destruct (EmbedSimple.create_embedding m _) as [v |] eqn:Hv;
    cbn [ebind] in H; [| discriminate].
  inversion H; subst; clear H. unfold numbered. cbn [vectors id_counter].
  assert (Hlen : forall e : simple_entry,
             length (vectors st ++ [e]) = S (length (vectors st)))
    by (intros e; rewrite length_app; cbn; lia).
  split; [| apply Hlen]. split; [| split].
  - rewrite Hlen, Hc. lia.
  - rewrite Hlen, map_app, seq_S, map_app, Hids, Hc. reflexivity.
  - apply Forall_app. split; [exact Hsz |]. constructor; [| constructor].
    split; [exact (create_embedding_length _ _ Hv) |].
    exists (firstn 500
              (EmbedSimpleChunks.chunk_text py_str json_dumps category content)).
    split; [reflexivity |]. rewrite length_firstn. lia.
Qed.

Lemma add_chunks_numbered (chunks : list (pystr * pyval * pystr))
    (st st' : script_state) :
  add_chunks chunks st = inl st' ->
  numbered st ->
  numbered st'
  /\ length (vectors st') = length (vectors st) + length chunks.
Proof.
  revert st. induction chunks as [| [[cat content] section] rest IH];
    intros st H Hn.
  - cbn in H. inversion H; subst. split; [exact Hn | cbn; lia].
  - cbn [EmbedSimpleChunks.add_chunks] in H.
    destruct (add_chunk cat content section st) as [[n st1] | e] eqn:H1;
      cbn [ebind snd] in H; [| discriminate].
    destruct (add_chunk_numbered _ _ _ _ _ _ H1 Hn) as [Hn1 Hl1].
    destruct (IH st1 H Hn1) as [Hn' Hl']. split; [exact Hn' |].
    rewrite Hl', Hl1. cbn [length]. lia.
Qed.

(** X23.  When the chunk loop of embed_simple.py runs through, starting
    from the empty list and counter 1, there is one entry per chunk, the
    ids are chunk_1, chunk_2, ... in order and pairwise distinct, every
    vector has exactly 1536 values and every metadata text at most 500
    characters. *)
Theorem add_chunks_numbers_and_sizes :
  forall (chunks : list (pystr * pyval * pystr)) (st' : script_state),
    add_chunks chunks {| vectors := []; id_counter := 1 |} = inl st' ->
    length (vectors st') = length chunks
    /\ id_counter st' = S (length chunks)
    /\ map se_id (vectors st') = map chunk_id (seq 1 (length chunks))
    /\ NoDup (map se_id (vectors st'))
    /\ Forall well_sized (vectors st').
Proof.
  intros chunks st' H.
  destruct (add_chunks_numbered chunks _ st' H) as [(Hc & Hids & Hsz) Hlen].
  { repeat split. constructor. }
  cbn [vectors length Nat.add] in Hlen.
  rewrite Hlen in Hc, Hids.
  repeat split; try assumption.
  rewrite Hids. clear. generalize (seq_NoDup (length chunks) 1).
  generalize (seq 1 (length chunks)). intros l Hl.
  induction Hl as [| x l Hx Hl IH]; cbn [map]; constructor; [| exact IH].
  intros Hin. apply in_map_iff in Hin as (y & Hy & Hiny).
  apply chunk_id_inj in Hy. subst y. contradiction.
Qed.

(** X24.  One call of [add_chunk] returns the length of the whole text
    while the metadata keeps its first 500 characters; and a hit carrying
    that metadata is labelled by the first program with the section of
    the chunk: its context line is "section: " followed by those
    characters. *)
Theorem add_chunk_text_and_label :
  forall (category : pystr) (content : pyval) (section : pystr)
         (st st' : script_state) (n : nat) (score : pyval),
    add_chunk category content section st = inl (n, st') ->
    let text := EmbedSimpleChunks.chunk_text py_str json_dumps category content in
    n = length text
    /\ exists entry,
         vectors st' = vectors st ++ [entry]
         /\ se_id entry = chunk_id (id_counter st)
         /\ assoc (lit "text") (se_metadata entry) = Some (PStr (firstn 500 text))
         /\ (section <> [] -> text <> [] ->
             Manual.context_entry py_str (normalized score (se_metadata entry))
             = inl (PStr (section ++ lit ": " ++ firstn 500 text))).
Proof.
  intros category content section st st' n score H text.
  unfold EmbedSimpleChunks.add_chunk in H. fold text in H.
  destruct (EmbedSimple.create_embedding m text) as [v |];
    cbn [ebind] in H; [| discriminate].
  inversion H; subst; clear H. split; [reflexivity |].
  eexists. split; [reflexivity |]. cbn [se_id se_metadata].
  split; [reflexivity | split; [reflexivity |]].
  intros Hs Ht.
  destruct section as [| a section]; [congruence |].
  destruct text as [| b text']; [congruence |].
  reflexivity.
Qed.

End Scripts.

(* ------------------------------------------------------------------ *)
(** ** The interactive loops *)

Section Loops.

Variable SentenceTransformer : option (pystr -> exc model).
Variable DEFAULT_MODEL : pystr.
Variable py_str : pyval -> pystr.
Variable py_lower : pystr -> pystr.
Variable index : option Index.
Variable groq_client : option Groq.

Lemma lstrip_fixed (t : pystr) :
  (forall c rest, t = c :: rest -> is_space c = false) -> lstrip t = t.
Proof.
  intros H. destruct t as [| c t]; [reflexivity |].
  cbn [lstrip]. now rewrite (H c t eq_refl).
Qed.

(** Stripping twice is stripping once. *)
Lemma strip_idempotent (s : pystr) : strip (strip s) = strip s.
Proof.
  destruct (strip_trims s) as (_ & Hfirst & Hlast).
  unfold strip at 1. rewrite (lstrip_fixed (strip s) Hfirst).
  unfold rstrip. rewrite lstrip_fixed; [apply rev_involutive |].
  intros c rest Hrev. apply (Hlast (rev rest) c).
  rewrite <- (rev_involutive (strip s)), Hrev. reflexivity.
Qed.

Lemma manual_loop_asks (inputs : list input) (g : globals) :
  ManualMain.main_loop SentenceTransformer DEFAULT_MODEL py_str py_lower
    index groq_client inputs g
  = ask_all (fun q => Manual.rag_query SentenceTransformer DEFAULT_MODEL
                        py_str index groq_client q 3)
      (manual_questions py_lower inputs) (manual_ending py_lower inputs) g.
Proof.
  revert g. induction inputs as [| [s |] rest IH]; intros g;
    [reflexivity | | reflexivity].
  cbn [ManualMain.main_loop manual_questions manual_ending].
  destruct (strip s) as [| c q]; [apply IH |].
  destruct (is_exit (py_lower (c :: q))); [reflexivity |].
  cbn [ask_all].
  destruct (Manual.rag_query _ _ _ _ _ _ _ _) as [[t g'] [resp | e]];
    [| reflexivity].
  now rewrite IH.
Qed.

(** X25.  The loop of the first program's [main] asks [rag_query]
    exactly the stripped, non-blank lines typed before the first exit,
    quit or Ctrl-C, in order; so every question it asks is non-empty and
    free of leading and trailing whitespace, and the empty-question guard
    of [rag_query] is never reached from the loop. *)
Theorem manual_loop_asks_trimmed_questions :
  forall (inputs : list input) (g : globals),
    ManualMain.main_loop SentenceTransformer DEFAULT_MODEL py_str py_lower
      index groq_client inputs g
    = ask_all (fun q => Manual.rag_query SentenceTransformer DEFAULT_MODEL
                          py_str index groq_client q 3)
        (manual_questions py_lower inputs) (manual_ending py_lower inputs) g
    /\ Forall (fun q => q <> [] /\ strip q = q
                        /\ is_exit (py_lower q) = false)
         (manual_questions py_lower inputs).
Proof.
  intros inputs g. split; [apply manual_loop_asks |].
  clear g. induction inputs as [| [s |] rest IH]; cbn [manual_questions];
    [constructor | | constructor].
  destruct (strip s) as [| c q] eqn:Es; [exact IH |].
  destruct (is_exit (py_lower (c :: q))) eqn:Ex; [constructor |].
  constructor; [| exact IH].
  split; [discriminate | split; [| exact Ex]].
  rewrite <- Es. apply strip_idempotent.
Qed.

Lemma builtin_rag_query_total (q : pystr) (g : globals) :
  exists t g' answer,
    Builtin.rag_query py_str index groq_client q g = (t, g', inl answer).
Proof.
  unfold Builtin.rag_query, try_except.
  destruct (bind _ _ g) as [[t g'] [s | e]]; do 3 eexists; reflexivity.
Qed.

Lemma builtin_loop_asks (inputs : list input) (g : globals) :
  BuiltinMain.main_loop py_str py_lower index groq_client inputs g
  = ask_all (Builtin.rag_query py_str index groq_client)
      (builtin_questions py_lower inputs) (builtin_ending py_lower inputs) g.
Proof.
  revert g. induction inputs as [| [s |] rest IH]; intros g;
    [reflexivity | | reflexivity].
  cbn [BuiltinMain.main_loop builtin_questions builtin_ending].
  destruct (is_exit (py_lower s)); [reflexivity |].
  destruct (strip s) as [| c q]; [apply IH |].
  cbn [ask_all].
  destruct (Builtin.rag_query _ _ _ _ _) as [[t g'] [resp | e]];
    [| reflexivity].
  now rewrite IH.
Qed.

Lemma ask_all_builtin (qs : list pystr) (fin : ending) (g : globals) :
  exists t g' out,
    ask_all (Builtin.rag_query py_str index groq_client) qs fin g
    = (t, g', out, fin)
    /\ length out = length qs.
Proof.
  revert g. induction qs as [| q qs IH]; intros g.
  - do 3 eexists. split; reflexivity.
  - cbn [ask_all].
    destruct (builtin_rag_query_total q g) as (t & g' & answer & ->).
    destruct (IH g') as (t' & g'' & out & -> & Hlen).
    do 3 eexists. split; [reflexivity |]. cbn. now rewrite Hlen.
Qed.

(** X26.  The loop of the second program's [main] asks [rag_query] the
    lines as typed, untrimmed, that are not blank, up to the first exit
    or quit; every question gets an answer printed, and the loop never
    ends on an exception of [rag_query]. *)
Theorem builtin_loop_answers_every_question :
  forall (inputs : list input) (g : globals),
    (exists t g' out,
        BuiltinMain.main_loop py_str py_lower index groq_client inputs g
        = (t, g', out, builtin_ending py_lower inputs)
        /\ length out = length (builtin_questions py_lower inputs))
    /\ BuiltinMain.main_loop py_str py_lower index groq_client inputs g
       = ask_all (Builtin.rag_query py_str index groq_client)
           (builtin_questions py_lower inputs)
           (builtin_ending py_lower inputs) g
    /\ Forall (fun q => strip q <> [] /\ is_exit (py_lower q) = false)
         (builtin_questions py_lower inputs)
    /\ (forall e, builtin_ending py_lower inputs <> Raised e).
Proof.
  intros inputs g. split; [| split; [| split]].
  - rewrite builtin_loop_asks. apply ask_all_builtin.
  - apply builtin_loop_asks.
  - clear g. induction inputs as [| [s |] rest IH]; cbn [builtin_questions];
      [constructor | | constructor].
    destruct (is_exit (py_lower s)) eqn:Ex; [constructor |].
    destruct (strip s) as [| c q] eqn:Es; [exact IH |].
    constructor; [| exact IH].
    split; [rewrite Es; discriminate | exact Ex].
  - clear g. induction inputs as [| [s |] rest IH]; cbn [builtin_ending];
      intros e; try discriminate.
    destruct (is_exit (py_lower s)); [discriminate | apply IH].
Qed.

End Loops.

(* ------------------------------------------------------------------ *)
(** ** test_rag.py *)

Section TestRag.

Variable SentenceTransformer : option (pystr -> exc model).
Variable index : Index.
Variable groq_client : Groq.
Variable py_str : pyval -> pystr.
Variable format_2f : pyval -> exc pystr.
Variable format_3f : pyval -> exc pystr.

Local Abbreviation query_digital_twin :=
  (TestRagQuery.query_digital_twin SentenceTransformer index groq_client
     py_str format_2f format_3f).

Lemma query_embedding_length (mdl : model) (question : pystr)
    (v : list float) :
  TestRag.query_embedding mdl question = inl v -> length v = 1536.
Proof.
  unfold TestRag.query_embedding.
  destruct (encode mdl question) as [emb | e]; cbn [ebind]; [| discriminate].
  intros H. inversion H. apply pad_then_slice_length.
Qed.

(** X27.  [query_digital_twin] never raises and leaves the globals
    alone; every vector it sends to the index has exactly 1536
    components; and it makes at most one chat request, after the query. *)
Theorem query_digital_twin_never_raises :
  forall (question : pystr) (top_k : Z) (g : globals),
    exists t answer,
      query_digital_twin question top_k g = (t, g, inl answer)
      /\ queries_have_dimension 1536 t
      /\ count_events is_chat t <= 1.
Proof.
  intros question top_k g.
  unfold TestRagQuery.query_digital_twin, try_except, bind, call, lift, ret.
  destruct SentenceTransformer as [ctor |].
  2: { do 2 eexists. split; [reflexivity |]. split; [constructor | cbn; lia]. }
  destruct (ctor TestRagQuery.MODEL_NAME) as [mdl | e].
  2: { do 2 eexists. split; [reflexivity |].
       split; [repeat constructor | cbn; lia]. }
  destruct (TestRag.query_embedding mdl question) as [v | e] eqn:Hv.
  2: { do 2 eexists. split; [reflexivity |].
       split; [repeat constructor | cbn; lia]. }
  pose proof (query_embedding_length mdl question v Hv) as Hlen.
  destruct (query index v top_k) as [results | e].
  2: { do 2 eexists. split; [reflexivity |].
       split; [repeat constructor; exact Hlen | cbn; lia]. }
  destruct (truthy results); cbn [negb].
  2: { do 2 eexists. split; [reflexivity |].
       split; [repeat constructor; exact Hlen | cbn; lia]. }
  destruct (py_len results) as [n | e].
  2: { do 2 eexists. split; [reflexivity |].
       split; [repeat constructor; exact Hlen | cbn; lia]. }
  destruct (iterate results) as [rs | e].
  2: { do 2 eexists. split; [reflexivity |].
       split; [repeat constructor; exact Hlen | cbn; lia]. }
  destruct (TestRagQuery.context_parts py_str format_2f format_3f 1 rs)
    as [parts | e].
  2: { do 2 eexists. split; [reflexivity |].
       split; [repeat constructor; exact Hlen | cbn; lia]. }
  destruct (create groq_client _) as [completion | e].
  2: { do 2 eexists. split; [reflexivity |].
       split; [repeat constructor; exact Hlen | cbn; lia]. }
  destruct (ebind (getattr completion "choices") _) as [answer | e];
    do 2 eexists; (split; [reflexivity |]);
    (split; [repeat constructor; exact Hlen | cbn; lia]).
Qed.


End TestRag.


(* ------------------------------------------------------------------ *)
(** ** The further properties at concrete inputs *)

Lemma embedding_model_loaded_once_witness :
  let m := mock_model 384 in
  _embedding_model (loaded m) = Some m
  /\ ([EvLoadModel Manual.MODEL_NAME] = []
      \/ [EvLoadModel Manual.MODEL_NAME] = [EvLoadModel Manual.MODEL_NAME])
  /\ Manual.get_embedding_model None (loaded m) = ([], loaded m, inl (Some m)).
Proof.
  cbv zeta.
  apply (embedding_model_loaded_once (Some (mock_loader (mock_model 384)))
           None fresh (loaded (mock_model 384))
           [EvLoadModel Manual.MODEL_NAME] (mock_model 384)).
  reflexivity.
Defined.

Lemma embedding_model_failure_is_retried_witness :
  Manual.get_embedding_model None fresh = ([], fresh, inl None)
  /\ Manual.get_embedding_model (Some failing_loader) fresh
     = ([EvLoadModel Manual.MODEL_NAME], fresh, inl None).
Proof.
  split.
  - apply (proj1 (embedding_model_failure_is_retried None fresh eq_refl)).
    reflexivity.
  - apply (proj2 (embedding_model_failure_is_retried (Some failing_loader)
                    fresh eq_refl)
             failing_loader (Exn BackendError (lit "model not found")));
      reflexivity.
Defined.

Lemma embed_text_failure_is_none_witness :
  Manual.embed_text None QUESTION (loaded failing_model)
  = ([EvEncode QUESTION], loaded failing_model, inl None)
  /\ Manual.embed_text None QUESTION fresh = ([], fresh, inl None)
  /\ Manual.embed_text (Some failing_loader) QUESTION fresh
     = ([EvLoadModel Manual.MODEL_NAME], fresh, inl None).
Proof.
  split; [| split].
  - destruct (embed_text_failure_is_none None QUESTION (loaded failing_model))
      as (_ & H & _).
    apply (H failing_model (Exn BackendError (lit "encode failed")));
      reflexivity.
  - destruct (embed_text_failure_is_none None QUESTION fresh)
      as (_ & _ & H & _).
    apply H; reflexivity.
  - destruct (embed_text_failure_is_none (Some failing_loader) QUESTION fresh)
      as (_ & _ & _ & H).
    apply (H failing_loader (Exn BackendError (lit "model not found")));
      reflexivity.
Defined.

Lemma query_vectors_skips_index_without_embedding_witness :
  Manual.query_vectors None (Some skills_index) QUESTION 3 fresh
  = ([], fresh, inl [])
  /\ count_events is_query [] = 0.
Proof.
  apply (proj2 (query_vectors_skips_index_without_embedding None skills_index
                  QUESTION 3%Z fresh fresh [])).
  reflexivity.
Defined.

Lemma query_vectors_mapping_shapes_witness :
  let g := loaded (mock_model 384) in
  let v := repeat 1%float 384 ++ repeat 0%float (1536 - 384) in
  let hs : list hit_data :=
    [(PFloat 0.5%float, [(lit "content", PStr (lit "Python, Go"))]);
     (PInt 0, [(lit "title", PStr (lit "Skills"))])] in
  Manual.query_vectors None (Some (mock_index (matches_response hs)))
    QUESTION 3 g
  = ([EvEncode QUESTION] ++ [EvQuery v 3], g,
     inl (map (fun h => normalized (fst h) (snd h)) hs)).
Proof.
  cbv zeta.
  apply (query_vectors_mapping_shapes None
           (mock_index
              (matches_response
                 [(PFloat 0.5%float, [(lit "content", PStr (lit "Python, Go"))]);
                  (PInt 0%Z, [(lit "title", PStr (lit "Skills"))])]))
           QUESTION 3%Z (loaded (mock_model 384)) (loaded (mock_model 384))
           [EvEncode QUESTION]
           (repeat 1%float 384 ++ repeat 0%float (1536 - 384))
           [(PFloat 0.5%float, [(lit "content", PStr (lit "Python, Go"))]);
            (PInt 0%Z, [(lit "title", PStr (lit "Skills"))])]
           (matches_response
              [(PFloat 0.5%float, [(lit "content", PStr (lit "Python, Go"))]);
               (PInt 0%Z, [(lit "title", PStr (lit "Skills"))])])).
  - vm_compute. reflexivity.
  - reflexivity.
  - right. left. reflexivity.
Defined.

Lemma query_vectors_object_shape_witness :
  let g := loaded (mock_model 384) in
  let v := repeat 1%float 384 ++ repeat 0%float (1536 - 384) in
  let hs : list hit_data :=
    [(PFloat 0.5%float, [(lit "content", PStr (lit "Python, Go"))]);
     (PNone, [(lit "title", PStr (lit "Skills"))])] in
  Manual.query_vectors None (Some (mock_index (object_response hs)))
    QUESTION 3 g
  = ([EvEncode QUESTION] ++ [EvQuery v 3], g,
     inl (map (fun h => normalized (fst h) (snd h)) hs)).
Proof.
  cbv zeta.
  apply (query_vectors_object_shape None
           (mock_index
              (object_response
                 [(PFloat 0.5%float, [(lit "content", PStr (lit "Python, Go"))]);
                  (PNone, [(lit "title", PStr (lit "Skills"))])]))
           QUESTION 3%Z (loaded (mock_model 384)) (loaded (mock_model 384))
           [EvEncode QUESTION]
           (repeat 1%float 384 ++ repeat 0%float (1536 - 384))
           [(PFloat 0.5%float, [(lit "content", PStr (lit "Python, Go"))]);
            (PNone, [(lit "title", PStr (lit "Skills"))])]).
  - vm_compute. reflexivity.
  - reflexivity.
  - constructor; [left; reflexivity |].
    constructor; [right; reflexivity | constructor].
Defined.

Lemma rag_query_propagates_assembly_error_witness :
  let g := loaded (mock_model 384) in
  let t :=
    [EvEncode QUESTION;
     EvQuery (repeat 1%float 384 ++ repeat 0%float (1536 - 384)) 3] in
  let e :=
    Exn TypeError (lit "sequence item 0: expected str instance, int found") in
  Manual.rag_query None LLAMA str_stub
    (Some (mock_index
             (PList [index_result (PFloat 0.5%float)
                       [(lit "content", PInt 5)]])))
    (Some echo_client) QUESTION 3 g
  = (t, g, inr e)
  /\ count_events is_chat t = 0.
Proof.
  cbv zeta.
  destruct (rag_query_propagates_assembly_error None LLAMA str_stub
              (Some (mock_index
                       (PList [index_result (PFloat 0.5%float)
                                 [(lit "content", PInt 5%Z)]])))
              (Some echo_client) QUESTION 3%Z
              (loaded (mock_model 384)) (loaded (mock_model 384))
              [EvEncode QUESTION;
               EvQuery (repeat 1%float 384 ++ repeat 0%float (1536 - 384)) 3%Z]
              [normalized (PFloat 0.5%float) [(lit "content", PInt 5%Z)]]
              (Exn TypeError
                 (lit "sequence item 0: expected str instance, int found")))
    as (Hrun & Hchat & _).
  - discriminate.
  - vm_compute. reflexivity.
  - vm_compute. reflexivity.
  - split; [exact Hrun | exact Hchat].
Defined.



Lemma builtin_generator_reads_sdk_shape_only_witness :
  let completion := completion_dict (PStr (lit "I know Python.")) in
  exists msg,
    Builtin.generate_response_with_groq
      (Some {| create := fun _ => inl completion |}) QUESTION LLAMA fresh
    = ([EvChat {| req_model := LLAMA; req_system := Builtin.SYSTEM_PROMPT;
                  req_user := QUESTION; req_temperature := 0.7%float;
                  req_max_tokens := 500 |}], fresh,
       inl (Builtin.ERROR_MARKER ++ msg)).
Proof.
  cbv zeta.
  pose proof (builtin_generator_reads_sdk_shape_only
                {| create := fun _ =>
                     inl (completion_dict (PStr (lit "I know Python."))) |}
                QUESTION LLAMA fresh
                (completion_dict (PStr (lit "I know Python.")))) as H.
  cbv zeta in H. apply H; reflexivity.
Defined.


Lemma manual_setup_needs_credentials_witness :
  ManualSetup.setup_vector_database str_stub (fun _ => None) (fun _ => None)
    bare_world
  = ([], Some None).
Proof.
  apply (proj2 (manual_setup_needs_credentials str_stub (fun _ => None)
                  (fun _ => None) bare_world)).
  left. reflexivity.
Defined.

Lemma manual_setup_skips_filled_index_witness :
  let store :=
    mock_store (inl (PObj [(lit "vector_count", PInt 7)])) (inl tt) in
  ManualSetup.setup_vector_database str_stub (fun _ => None) (fun _ => None)
    (mock_world store (inl (PDict (profile_of skills_chunk))))
  = ([SeConnect REST_URL REST_TOKEN; SeInfo], Some (Some store)).
Proof.
  cbv zeta.
  apply (manual_setup_skips_filled_index str_stub (fun _ => None)
           (fun _ => None)
           (mock_world
              (mock_store (inl (PObj [(lit "vector_count", PInt 7%Z)])) (inl tt))
              (inl (PDict (profile_of skills_chunk))))
           (fun _ _ =>
              inl (mock_store (inl (PObj [(lit "vector_count", PInt 7%Z)]))
                     (inl tt)))
           REST_URL REST_TOKEN
           (mock_store (inl (PObj [(lit "vector_count", PInt 7%Z)])) (inl tt))
           [(lit "vector_count", PInt 7%Z)] 7%Z);
    try reflexivity; discriminate.
Defined.

Lemma manual_setup_ingests_once_witness :
  let store :=
    mock_store (inr (Exn BackendError (lit "network failure")))
      (inr (Exn BackendError (lit "network failure"))) in
  ManualSetup.setup_vector_database str_stub (fun _ => None) (fun _ => None)
    (mock_world store (inl (PDict (profile_of skills_chunk))))
  = ([SeConnect REST_URL REST_TOKEN; SeInfo; SeRead;
      SeUpsert [manual_skills_vector]],
     Some (Some store))
  /\ length [manual_skills_vector] = length [PDict skills_chunk].
Proof.
  cbv zeta.
  apply (manual_setup_ingests_once str_stub (fun _ => None) (fun _ => None)
           (mock_world
              (mock_store (inr (Exn BackendError (lit "network failure")))
                 (inr (Exn BackendError (lit "network failure"))))
              (inl (PDict (profile_of skills_chunk))))
           (fun _ _ =>
              inl (mock_store (inr (Exn BackendError (lit "network failure")))
                     (inr (Exn BackendError (lit "network failure")))))
           REST_URL REST_TOKEN
           (mock_store (inr (Exn BackendError (lit "network failure")))
              (inr (Exn BackendError (lit "network failure"))))
           (profile_of skills_chunk) [PDict skills_chunk]
           [manual_skills_vector]).
  - reflexivity.
  - reflexivity.
  - discriminate.
  - reflexivity.
  - discriminate.
  - reflexivity.
  - left. exists (Exn BackendError (lit "network failure")). reflexivity.
  - reflexivity.
  - reflexivity.
  - reflexivity.
  - discriminate.
  - vm_compute. reflexivity.
Defined.

Lemma manual_vector_metadata_has_title_witness :
  assoc (lit "title") (ve_metadata manual_skills_vector)
  = Some (dict_get skills_chunk "title" (PStr [])).
Proof.
  apply (manual_vector_metadata_has_title str_stub skills_chunk
           manual_skills_vector).
  vm_compute. reflexivity.
Defined.

Lemma manual_ingested_chunk_shows_title_only_witness :
  ve_data manual_skills_vector = PStr (lit "Skills" ++ lit ": " ++ lit "Python, Go")
  /\ display_text (ve_metadata manual_skills_vector) = PStr (lit "Skills")
  /\ Manual.context_entry str_stub
       (normalized (PFloat 0.5%float) (ve_metadata manual_skills_vector))
     = inl (PStr (lit "Skills" ++ lit ": " ++ lit "Skills")).
Proof.
  apply (manual_ingested_chunk_shows_title_only str_stub skills_chunk []
           (lit "Skills") (lit "Python, Go") manual_skills_vector
           (PFloat 0.5%float)).
  - reflexivity.
  - discriminate.
  - reflexivity.
  - discriminate.
  - reflexivity.
  - reflexivity.
  - reflexivity.
  - vm_compute. reflexivity.
Defined.

Lemma builtin_setup_all_or_nothing_witness :
  let refusing :=
    mock_store (inr (Exn BackendError (lit "network failure")))
      (inr (Exn BackendError (lit "network failure"))) in
  let accepting :=
    mock_store (inl (PObj [(lit "vector_count", PInt 0)])) (inl tt) in
  BuiltinSetup.setup_vector_database str_stub
    (mock_world accepting (inl (PDict (profile_of untyped_chunk))))
  = ([SeFromEnv; SeInfo; SeRead], Some None)
  /\ BuiltinSetup.setup_vector_database str_stub
       (mock_world refusing (inl (PDict (profile_of skills_chunk))))
     = ([SeFromEnv; SeInfo; SeRead; SeUpsert [builtin_skills_vector]],
        Some None)
  /\ BuiltinSetup.setup_vector_database str_stub
       (mock_world accepting (inl (PDict (profile_of skills_chunk))))
     = ([SeFromEnv; SeInfo; SeRead; SeUpsert [builtin_skills_vector]],
        Some (Some accepting)).
Proof.
  cbv zeta. split; [| split].
  - destruct (builtin_setup_all_or_nothing str_stub
                (mock_world
                   (mock_store (inl (PObj [(lit "vector_count", PInt 0%Z)]))
                      (inl tt))
                   (inl (PDict (profile_of untyped_chunk))))
                (mock_store (inl (PObj [(lit "vector_count", PInt 0%Z)]))
                   (inl tt))
                (profile_of untyped_chunk) [PDict untyped_chunk])
      as [_ H].
    destruct H as (H & _ & _).
    + reflexivity.
    + right. exists (PObj [(lit "vector_count", PInt 0%Z)]).
      split; reflexivity.
    + reflexivity.
    + reflexivity.
    + discriminate.
    + apply H. vm_compute. reflexivity.
  - destruct (builtin_setup_all_or_nothing str_stub
                (mock_world
                   (mock_store (inr (Exn BackendError (lit "network failure")))
                      (inr (Exn BackendError (lit "network failure"))))
                   (inl (PDict (profile_of skills_chunk))))
                (mock_store (inr (Exn BackendError (lit "network failure")))
                   (inr (Exn BackendError (lit "network failure"))))
                (profile_of skills_chunk) [PDict skills_chunk])
      as [_ H].
    destruct H as (_ & H & _).
    + reflexivity.
    + left. exists (Exn BackendError (lit "network failure")). reflexivity.
    + reflexivity.
    + reflexivity.
    + discriminate.
    + apply (H [builtin_skills_vector]
               (Exn BackendError (lit "network failure")));
        [vm_compute; reflexivity | reflexivity].
  - destruct (builtin_setup_all_or_nothing str_stub
                (mock_world
                   (mock_store (inl (PObj [(lit "vector_count", PInt 0%Z)]))
                      (inl tt))
                   (inl (PDict (profile_of skills_chunk))))
                (mock_store (inl (PObj [(lit "vector_count", PInt 0%Z)]))
                   (inl tt))
                (profile_of skills_chunk) [PDict skills_chunk])
      as [_ H].
    destruct H as (_ & _ & H).
    + reflexivity.
    + right. exists (PObj [(lit "vector_count", PInt 0%Z)]).
      split; reflexivity.
    + reflexivity.
    + reflexivity.
    + discriminate.
    + apply (H [builtin_skills_vector]);
        [vm_compute; reflexivity | reflexivity].
Defined.

Lemma builtin_ingested_chunk_round_trip_witness :
  ve_data builtin_skills_vector
  = PStr (lit "Skills" ++ lit ": " ++ lit "Python, Go")
  /\ Builtin.top_doc str_stub
       (index_result (PFloat 0.5%float) (ve_metadata builtin_skills_vector))
     = inl (Some (lit "Skills" ++ lit ": " ++ lit "Python, Go")).
Proof.
  apply (builtin_ingested_chunk_round_trip str_stub skills_chunk
           (lit "Skills") (lit "Python, Go") builtin_skills_vector
           0.5%float).
  - reflexivity.
  - reflexivity.
  - discriminate.
  - vm_compute. reflexivity.
Defined.


Lemma add_chunks_numbers_and_sizes_witness :
  let st' := {| vectors := [simple_skills_entry]; id_counter := 2 |} in
  let chunks := [(lit "Skills", PStr (lit "Python, Go"), lit "skills")] in
  length (vectors st') = length chunks
  /\ id_counter st' = S (length chunks)
  /\ map se_id (vectors st') = map chunk_id (seq 1 (length chunks))
  /\ NoDup (map se_id (vectors st'))
  /\ Forall well_sized (vectors st').
Proof.
  cbv zeta.
  apply (add_chunks_numbers_and_sizes str_stub (mock_model 384) str_stub
           [(lit "Skills", PStr (lit "Python, Go"), lit "skills")]
           {| vectors := [simple_skills_entry]; id_counter := 2 |}).
  vm_compute. reflexivity.
Defined.

Lemma add_chunk_text_and_label_witness :
  let st := {| vectors := []; id_counter := 1 |} in
  let text :=
    EmbedSimpleChunks.chunk_text str_stub str_stub (lit "Skills")
      (PStr (lit "Python, Go")) in
  18 = length text
  /\ exists entry,
       [simple_skills_entry] = vectors st ++ [entry]
       /\ se_id entry = chunk_id (id_counter st)
       /\ assoc (lit "text") (se_metadata entry) = Some (PStr (firstn 500 text))
       /\ (lit "skills" <> [] -> text <> [] ->
           Manual.context_entry str_stub
             (normalized (PFloat 0.5%float) (se_metadata entry))
           = inl (PStr (lit "skills" ++ lit ": " ++ firstn 500 text))).
Proof.
  cbv zeta.
  pose proof (add_chunk_text_and_label str_stub (mock_model 384) str_stub
                (lit "Skills") (PStr (lit "Python, Go")) (lit "skills")
                {| vectors := []; id_counter := 1 |}
                {| vectors := [simple_skills_entry]; id_counter := 2 |}
                18 (PFloat 0.5%float)) as H.
  cbv zeta in H. apply H. vm_compute. reflexivity.
Defined.

